(** * MapUp data assessment: the distance, toll and completeness transforms

    A shallow embedding of [submissions/python_task_2.py] and of [time_check]
    from [submissions/python_task_1.py].  Numbers are IEEE-754 binary64 values
    (Rocq's primitive floats, NaN being pandas' missing marker), identifiers
    are integers, Python exceptions are results of type [outcome]. *)

From Stdlib Require Import ZArith List String Bool Lia Floats Uint63 Sorted Permutation.
Import ListNotations.
Open Scope Z_scope.

(* Decimal literals denote the nearest binary64 value, as in Python. *)
Set Warnings "-inexact-float".

(** ** Python outcomes *)

Inductive exn : Type :=
| KeyError
| ValueError
| TypeError
| AttributeError.

Inductive outcome (A : Type) : Type :=
| Ok (a : A)
| Raise (e : exn).
Arguments Ok {A} a.
Arguments Raise {A} e.

Definition bind {A B : Type} (m : outcome A) (k : A -> outcome B) : outcome B :=
  match m with
  | Ok a => k a
  | Raise e => Raise e
  end.

Notation "x <- m ;; k" := (bind m (fun x => k))
  (at level 61, m at next level, right associativity).

Fixpoint mapM {A B : Type} (f : A -> outcome B) (l : list A) : outcome (list B) :=
  match l with
  | [] => Ok []
  | a :: t => b <- f a ;; bs <- mapM f t ;; Ok (b :: bs)
  end.

(** ** pandas: labels, long-form frames and wide-form matrices *)

Module Pandas.

(** [numpy.nan]; [pandas.isna] on a float64 cell. *)
Definition isna (x : float) : bool := PrimFloat.is_nan x.

(** Sorted labels without repetition: what [pivot], [groupby] and
    [Index.union] leave on an axis. *)
Fixpoint insert_label (x : Z) (l : list Z) : list Z :=
  match l with
  | [] => [x]
  | y :: t =>
      if x <? y then x :: l
      else if x =? y then l
      else y :: insert_label x t
  end.

Definition sorted_unique (l : list Z) : list Z := fold_right insert_label [] l.

(** [Index.union] of two label axes. *)
Definition union (a b : list Z) : list Z := sorted_unique (a ++ b).

(** First position of a label on an axis ([Index.get_loc]). *)
Fixpoint get_loc (x : Z) (l : list Z) : option nat :=
  match l with
  | [] => None
  | y :: t => if x =? y then Some O else option_map S (get_loc x t)
  end.

(** One row of a long-form distance table. *)
Record Row : Type := mkRow { id_start : Z; id_end : Z; distance : float }.

(** A wide-form frame: row labels, column labels and the 2-D block of values. *)
Record Matrix : Type := mkMatrix {
  index : list Z;
  columns : list Z;
  values : list (list float)
}.

(** The frame over the labels [idx] and [cols] whose cell [(i, j)] is [f i j]. *)
Definition labelled (idx cols : list Z) (f : Z -> Z -> float) : Matrix :=
  mkMatrix idx cols (map (fun i => map (f i) cols) idx).

(** [m.loc[i, j]] as reindexing reads it: NaN where a label is absent. *)
Definition cell (m : Matrix) (i j : Z) : float :=
  match get_loc i (index m), get_loc j (columns m) with
  | Some r, Some c => nth c (nth r (values m) []) nan
  | _, _ => nan
  end.

(** Does the pair [(i, j)] key the row [r]? *)
Definition keyed (i j : Z) (r : Row) : bool := (id_start r =? i) && (id_end r =? j).

Definition key (r : Row) : Z * Z := (id_start r, id_end r).

(** The value [pivot] puts in cell [(i, j)]: the distance of the row keyed by
    it, NaN when there is none. *)
Definition pivot_value (rows : list Row) (i j : Z) : float :=
  match find (keyed i j) rows with
  | Some r => distance r
  | None => nan
  end.

Fixpoint duplicated (rows : list Row) : bool :=
  match rows with
  | [] => false
  | r :: t => existsb (keyed (id_start r) (id_end r)) t || duplicated t
  end.

(** [df.pivot(index='id_start', columns='id_end', values='distance')]:
    a repeated (id_start, id_end) pair raises ValueError. *)
Definition pivot (rows : list Row) : outcome Matrix :=
  if duplicated rows then Raise ValueError
  else
    let idx := sorted_unique (map id_start rows) in
    let cols := sorted_unique (map id_end rows) in
    Ok (labelled idx cols (pivot_value rows)).

(** [m.fillna(v)]. *)
Definition fillna (v : float) (m : Matrix) : Matrix :=
  mkMatrix (index m) (columns m)
    (map (map (fun x => if isna x then v else x)) (values m)).

(** [m.T]: labels swapped, block transposed by position. *)
Definition transpose (m : Matrix) : Matrix :=
  mkMatrix (columns m) (index m)
    (map (fun c => map (fun row => nth c row nan) (values m))
         (seq 0 (List.length (columns m)))).

(** [m.reindex(index=idx, columns=cols)]. *)
Definition reindex (m : Matrix) (idx cols : list Z) : Matrix :=
  mkMatrix idx cols (map (fun i => map (fun j => cell m i j) cols) idx).

Fixpoint zip_with {A B C : Type} (f : A -> B -> C) (l : list A) (l' : list B) : list C :=
  match l, l' with
  | a :: t, b :: t' => f a b :: zip_with f t t'
  | _, _ => []
  end.

(** [ops.fill_binop] followed by the addition: a side that is missing is
    replaced by [fill_value] only where the other side is present. *)
Definition fill_add (fill_value : float) (l r : float) : float :=
  let l' := if isna l && negb (isna r) then fill_value else l in
  let r' := if isna r && negb (isna l) then fill_value else r in
  (l' + r')%float.

(** [a.add(b, fill_value=v)]: both frames are aligned on the union of their
    labels, then added cell by cell. *)
Definition add (a b : Matrix) (fill_value : float) : Matrix :=
  let idx := union (index a) (index b) in
  let cols := union (columns a) (columns b) in
  let a' := reindex a idx cols in
  let b' := reindex b idx cols in
  mkMatrix idx cols (zip_with (zip_with (fill_add fill_value)) (values a') (values b')).

Fixpoint replace_nth (k : nat) (row : list float) (v : float) : list float :=
  match row, k with
  | [], _ => []
  | _ :: t, O => v :: t
  | x :: t, S k' => x :: replace_nth k' t v
  end.

Fixpoint fill_diagonal_from (k : nat) (vals : list (list float)) (v : float)
  : list (list float) :=
  match vals with
  | [] => []
  | row :: rest => replace_nth k row v :: fill_diagonal_from (S k) rest v
  end.

(** [Index.equals]. *)
Fixpoint labels_eqb (a b : list Z) : bool :=
  match a, b with
  | [], [] => true
  | x :: a', y :: b' => (x =? y) && labels_eqb a' b'
  | _, _ => false
  end.

(** Whether [a.add(b)] finds the two frames already aligned, label for label
    on both axes.  The sum is then held in one block; otherwise the
    reindexing of the alignment leaves it split over several. *)
Definition indexed_same (a b : Matrix) : bool :=
  labels_eqb (index a) (index b) && labels_eqb (columns a) (columns b).

(** [np.fill_diagonal(m.values, v)] (pandas 2.x): position [(k, k)] is
    overwritten for every [k] below both dimensions of the array [m.values].
    That array is the frame's own block when the frame is held in one block
    ([own_block]); otherwise it is a fresh copy and the write never reaches
    the frame. *)
Definition fill_diagonal (own_block : bool) (m : Matrix) (v : float) : Matrix :=
  if own_block
  then mkMatrix (index m) (columns m) (fill_diagonal_from 0 (values m) v)
  else m.

(** [m.stack()]: one entry per cell in row-major order, missing cells dropped
    ([dropna=True], the default). *)
Definition stack (m : Matrix) : list (Z * Z * float) :=
  flat_map
    (fun ir : Z * list float =>
       filter (fun e : Z * Z * float => negb (isna (snd e)))
         (map (fun jx : Z * float => (fst ir, fst jx, snd jx))
              (combine (columns m) (snd ir))))
    (combine (index m) (values m)).

End Pandas.

(** ** Long-form frames with named columns *)

Module Frame.
Import Pandas.

(** Cells of an object column: [None], [NaT], a string, or a [datetime.time]
    (microseconds since midnight). *)
Inductive pyobj : Type :=
| PyNone
| PyNaT
| PyStr (s : string)
| PyTime (t : Z).

(** A column beside the three distance columns, by dtype.  A [datetime64[ns]]
    cell is a number of nanoseconds since the epoch, [None] being [NaT]. *)
Inductive column : Type :=
| Float64 (l : list float)
| Datetime64 (l : list (option Z))
| Object (l : list pyobj).

(** A long-form table: the rows of (id_start, id_end, distance) and the further
    columns by name, in insertion order. *)
Record DataFrame : Type := mkFrame {
  rows : list Row;
  extra : list (string * column)
}.

Fixpoint lookup (name : string) (cols : list (string * column)) : option column :=
  match cols with
  | [] => None
  | (k, c) :: t => if String.eqb k name then Some c else lookup name t
  end.

Fixpoint assign (name : string) (c : column) (cols : list (string * column))
  : list (string * column) :=
  match cols with
  | [] => [(name, c)]
  | (k, c') :: t =>
      if String.eqb k name then (k, c) :: t else (k, c') :: assign name c t
  end.

(** [df[name]]: KeyError when the column is absent. *)
Definition getitem (df : DataFrame) (name : string) : outcome column :=
  match lookup name (extra df) with
  | Some c => Ok c
  | None => Raise KeyError
  end.

(** [df[name] = c]: overwrites the column in place or appends it. *)
Definition setitem (df : DataFrame) (name : string) (c : column) : DataFrame :=
  mkFrame (rows df) (assign name c (extra df)).

(** [df.drop(columns=name)]. *)
Definition drop (df : DataFrame) (name : string) : DataFrame :=
  mkFrame (rows df) (filter (fun kc => negb (String.eqb (fst kc) name)) (extra df)).

Definition column_length (c : column) : nat :=
  match c with
  | Float64 l => List.length l
  | Datetime64 l => List.length l
  | Object l => List.length l
  end.

(** Every column is as long as the index. *)
Definition well_formed (df : DataFrame) : Prop :=
  Forall (fun kc => column_length (snd kc) = List.length (rows df)) (extra df).

(** [left * right] on two columns of one frame. *)
Definition mul_columns (left : column) (right : list float) : outcome column :=
  match left with
  | Float64 l => Ok (Float64 (zip_with PrimFloat.mul l right))
  | Object [] => Ok (Object [])
  | Object (_ :: _) => Raise TypeError
  | Datetime64 _ => Raise TypeError
  end.

End Frame.

(** ** Dates and times *)

Module Clock.

Definition ns_per_day : Z := 86400 * 1000000000.

(** [Timestamp.weekday()]: Monday is 0; the epoch was a Thursday. *)
Definition weekday (ns : Z) : Z := (ns / ns_per_day + 3) mod 7.

(** [Timestamp.time()], in microseconds since midnight. *)
Definition time_of_day (ns : Z) : Z := (ns mod ns_per_day) / 1000.

(** [datetime.time(h, m, s)], in microseconds since midnight. *)
Definition time (h m s : Z) : Z := ((h * 60 + m) * 60 + s) * 1000000.

(** [pd.Timedelta(hours=h, minutes=m, seconds=s)], in nanoseconds. *)
Definition Timedelta (h m s : Z) : Z := ((h * 60 + m) * 60 + s) * 1000000000.

(** The temporal values a subtraction can meet: a [Timestamp] (nanoseconds
    since the epoch), a [datetime.time] (microseconds since midnight) and a
    [Timedelta] (nanoseconds). *)
Inductive temporal : Type :=
| Stamp (ns : Z)
| TimeOfDay (us : Z)
| Delta (ns : Z).

(** Python's [a - b]: timestamps and durations subtract; [datetime.time]
    defines comparisons but no arithmetic, so any subtraction that involves
    one raises TypeError. *)
Definition sub (a b : temporal) : outcome temporal :=
  match a, b with
  | Stamp x, Stamp y => Ok (Delta (x - y))
  | Stamp x, Delta y => Ok (Stamp (x - y))
  | Delta x, Delta y => Ok (Delta (x - y))
  | _, _ => Raise TypeError
  end.

(** Python's [a == b]: values of different kinds are unequal. *)
Definition eqb (a b : temporal) : bool :=
  match a, b with
  | Stamp x, Stamp y => x =? y
  | TimeOfDay x, TimeOfDay y => x =? y
  | Delta x, Delta y => x =? y
  | _, _ => false
  end.

End Clock.

(** ** submissions/python_task_2.py *)

Module Task2.
Import Pandas Frame.

(** [calculate_distance_matrix(df)].  The sum of line 18 is held in one block
    exactly when the pivoted table and its transpose were already aligned;
    only then does the write of line 19 reach it. *)
Definition calculate_distance_matrix (df : DataFrame) : outcome Matrix :=
  pivoted <- pivot (rows df) ;;
  let distance_matrix := fillna 0 pivoted in
  let one_block := indexed_same distance_matrix (transpose distance_matrix) in
  let distance_matrix := add distance_matrix (transpose distance_matrix) 0 in
  Ok (fill_diagonal one_block distance_matrix 0).

(** The two intermediate values of [calculate_distance_matrix] in closed
    form: the pivoted, zero-filled table and the identifiers of the result. *)
Definition pivoted (df : DataFrame) : Matrix :=
  fillna 0
    (labelled (sorted_unique (map id_start (rows df)))
              (sorted_unique (map id_end (rows df)))
              (pivot_value (rows df))).

Definition identifiers (df : DataFrame) : list Z :=
  union (sorted_unique (map id_start (rows df)))
        (sorted_unique (map id_end (rows df))).

(** Whether the pivoted table and its transpose are already aligned: the same
    identifiers occur as id_start and as id_end. *)
Definition aligned (df : DataFrame) : bool :=
  indexed_same (pivoted df) (transpose (pivoted df)).

(** The cell (i, j) of the result, in closed form. *)
Definition distance_cell (df : DataFrame) (i j : Z) : float :=
  if aligned df && (i =? j) then 0%float
  else fill_add 0 (cell (pivoted df) i j) (cell (pivoted df) j i).

(** [unroll_distance_matrix(df)]: [stack], [reset_index] and the three column
    names. *)
Definition unroll_distance_matrix (df : Matrix) : DataFrame :=
  mkFrame (map (fun e : Z * Z * float => mkRow (fst (fst e)) (snd (fst e)) (snd e))
               (stack df))
          [].

(** What a caller does to exclude the diagonal: keep the rows whose two
    identifiers differ. *)
Definition exclude_diagonal (df : DataFrame) : DataFrame :=
  mkFrame (filter (fun r => negb (id_start r =? id_end r)) (rows df)) (extra df).

Section Means.

(** The two summation routines pandas uses (the reduction of a Series and the
    grouped one); their rounding order is the library's, so they are left
    abstract. *)
Variable series_sum : list float -> float.
Variable group_sum : list float -> float.

Definition count (l : list float) : float :=
  PrimFloat.of_uint63 (Uint63.of_Z (Z.of_nat (List.length l))).

(** [mean()] skips missing values and is NaN on an empty selection. *)
Definition mean_with (sum : list float -> float) (l : list float) : float :=
  match filter (fun x => negb (isna x)) l with
  | [] => nan
  | xs => (sum xs / count xs)%float
  end.

(** [df.groupby('id_start')['distance'].mean()]: one entry per identifier, in
    increasing order. *)
Definition groupby_mean (rs : list Row) : list (Z * float) :=
  map (fun k =>
         (k, mean_with group_sum
               (map distance (filter (fun r => id_start r =? k) rs))))
      (sorted_unique (map id_start rs)).

Fixpoint insert_by_key (e : Z * float) (l : list (Z * float)) : list (Z * float) :=
  match l with
  | [] => [e]
  | y :: t => if fst e <=? fst y then e :: l else y :: insert_by_key e t
  end.

(** [sort_values(by='id_start')]. *)
Definition sort_values (l : list (Z * float)) : list (Z * float) :=
  fold_right insert_by_key [] l.

(** [find_ids_within_ten_percentage_threshold(df, reference_id)]; the result
    has the columns id_start and distance (the group mean). *)
Definition find_ids_within_ten_percentage_threshold
    (df : DataFrame) (reference_id : Z) : outcome (list (Z * float)) :=
  let avg_distance_reference :=
    mean_with series_sum
      (map distance (filter (fun r => id_start r =? reference_id) (rows df))) in
  let threshold := (0.1 * avg_distance_reference)%float in
  let result_df :=
    filter (fun kx : Z * float =>
              let x := snd kx in
              (avg_distance_reference - threshold <=? x)%float
              && (x <=? avg_distance_reference + threshold)%float)
           (groupby_mean (rows df)) in
  Ok (sort_values result_df).

End Means.

Definition toll_rates : list (string * float) :=
  [("moto", 0.8); ("car", 1.2); ("rv", 1.5); ("bus", 2.2); ("truck", 3.6)]%float%string.

(** [calculate_toll_rate(df)]. *)
Definition calculate_toll_rate (df : DataFrame) : DataFrame :=
  fold_left
    (fun df (item : string * float) =>
       let (vehicle_type, rate) := item in
       setitem df vehicle_type
         (Float64 (map (fun d => (d * rate)%float) (map distance (rows df)))))
    toll_rates df.

Section TimeBased.

(** [pd.to_datetime] on a string and on a number (an offset from the epoch) is
    the library's parser: [None] stands for a value it rejects. *)
Variable parse_datetime : string -> option Z.
Variable datetime_of_float : float -> option Z.

Definition to_datetime_object (o : pyobj) : outcome (option Z) :=
  match o with
  | PyNone | PyNaT => Ok None
  | PyStr s =>
      match parse_datetime s with
      | Some t => Ok (Some t)
      | None => Raise ValueError
      end
  | PyTime _ => Raise TypeError
  end.

Definition to_datetime_float (x : float) : outcome (option Z) :=
  if isna x then Ok None
  else match datetime_of_float x with
       | Some t => Ok (Some t)
       | None => Raise ValueError
       end.

(** [pd.to_datetime(series)]. *)
Definition to_datetime (c : column) : outcome column :=
  match c with
  | Datetime64 l => Ok (Datetime64 l)
  | Object l => l' <- mapM to_datetime_object l ;; Ok (Datetime64 l')
  | Float64 l => l' <- mapM to_datetime_float l ;; Ok (Datetime64 l')
  end.

(** The [.dt] accessor exists on datetime columns only. *)
Definition dt (c : column) : outcome (list (option Z)) :=
  match c with
  | Datetime64 l => Ok l
  | _ => Raise AttributeError
  end.

(** [series.dt.time]: the values are [datetime.time] objects, [NaT] kept.
    The Series built from them is an object column, except that pandas infers
    [datetime64[ns]] for values that are all [NaT] (and not empty). *)
Definition dt_time (l : list (option Z)) : column :=
  match l with
  | _ :: _ =>
      if forallb (fun t => match t with Some _ => false | None => true end) l
      then Datetime64 l
      else Object (map (fun t => match t with
                                 | Some ns => PyTime (Clock.time_of_day ns)
                                 | None => PyNaT
                                 end) l)
  | [] => Object []
  end.

(** [series.dt.weekday < 5]: a missing day compares false. *)
Definition weekday_lt (l : list (option Z)) (bound : Z) : list bool :=
  map (fun t => match t with
                | Some ns => Clock.weekday ns <? bound
                | None => false
                end) l.

(** [series.between(left, right)] against two [datetime.time] bounds, both
    inclusive; a null cell compares false. *)
Definition between (c : column) (left right : Z) : outcome (list bool) :=
  match c with
  | Object l =>
      mapM (fun o => match o with
                     | PyNone | PyNaT => Ok false
                     | PyTime t => Ok ((left <=? t) && (t <=? right))
                     | PyStr _ => Raise TypeError
                     end) l
  | _ => Raise TypeError
  end.

(** [np.select(condlist, choicelist)]: the first condition that holds picks the
    choice, 0 when none does.  [n] is the length of the columns. *)
Fixpoint np_select (n : nat) (condlist : list (list bool)) (choicelist : list float)
  : list float :=
  match condlist, choicelist with
  | cond :: conds, choice :: choices =>
      zip_with (fun (b : bool) rest => if b then choice else rest)
               cond (np_select n conds choices)
  | _, _ => repeat 0%float n
  end.

(** [np.where(cond, x, y)] with a scalar [y]. *)
Definition np_where (cond : list bool) (x : list float) (y : float) : list float :=
  zip_with (fun (b : bool) xv => if b then xv else y) cond x.

Definition temporal_names : list string :=
  ["start_day"; "start_time"; "end_day"; "end_time"]%string.

Definition vehicle_types : list string := ["moto"; "car"; "rv"; "bus"; "truck"]%string.

(** Lines 94-100: the four temporal columns are overwritten with [None], then
    converted. *)
Definition reset_temporal_columns (df : DataFrame) : outcome DataFrame :=
  let none := Object (repeat PyNone (List.length (rows df))) in
  let df := setitem df "start_day" none in
  let df := setitem df "start_time" none in
  let df := setitem df "end_day" none in
  let df := setitem df "end_time" none in
  c <- getitem df "start_day" ;; c <- to_datetime c ;;
  let df := setitem df "start_day" c in
  c <- getitem df "end_day" ;; c <- to_datetime c ;;
  let df := setitem df "end_day" c in
  c <- getitem df "start_time" ;; c <- to_datetime c ;; l <- dt c ;;
  let df := setitem df "start_time" (dt_time l) in
  c <- getitem df "end_time" ;; c <- to_datetime c ;; l <- dt c ;;
  let df := setitem df "end_time" (dt_time l) in
  Ok df.

(** Lines 103-117: the value assigned to [df['discount_factor']]. *)
Definition discount_factor (df : DataFrame) : outcome (list float) :=
  let weekday_time_ranges :=
    [(Clock.time 0 0 0, Clock.time 10 0 0);
     (Clock.time 10 0 0, Clock.time 18 0 0);
     (Clock.time 18 0 0, Clock.time 23 59 59)] in
  start_day <- getitem df "start_day" ;; days <- dt start_day ;;
  start_time <- getitem df "start_time" ;;
  conds <- mapM (fun range : Z * Z => between start_time (fst range) (snd range))
                weekday_time_ranges ;;
  Ok (np_where (weekday_lt days 5)
               (np_select (List.length (rows df)) conds [0.8; 1.2; 0.8]%float)
               0.7%float).

(** One turn of the loop of lines 120-122. *)
Definition discount_vehicle (df : DataFrame) (vehicle_type : string) : outcome DataFrame :=
  c <- getitem df vehicle_type ;;
  f <- getitem df "discount_factor" ;;
  match f with
  | Float64 factor => c' <- mul_columns c factor ;; Ok (setitem df vehicle_type c')
  | _ => Raise TypeError
  end.

Definition apply_discount (df : DataFrame) : outcome DataFrame :=
  fold_left (fun acc vehicle_type => df <- acc ;; discount_vehicle df vehicle_type)
            vehicle_types (Ok df).

(** [calculate_time_based_toll_rates(df)]. *)
Definition calculate_time_based_toll_rates (df : DataFrame) : outcome DataFrame :=
  df <- reset_temporal_columns df ;;
  factor <- discount_factor df ;;
  let df := setitem df "discount_factor" (Float64 factor) in
  df <- apply_discount df ;;
  Ok (drop df "discount_factor").

End TimeBased.

End Task2.

(** ** submissions/python_task_1.py: time_check *)

Module Task1.
Import Pandas.

(** One row of the timestamped table, [timestamp] as [pd.to_datetime] leaves
    it on line 97: nanoseconds since the epoch.  The tables described are
    those whose timestamps are all present and parsed; a missing or
    unparsable timestamp is not modelled. *)
Record Observation : Type := mkObservation { id : Z; id_2 : Z; timestamp : Z }.

Definition key_ltb (a b : Z * Z) : bool :=
  (fst a <? fst b) || ((fst a =? fst b) && (snd a <? snd b)).

Definition key_eqb (a b : Z * Z) : bool := (fst a =? fst b) && (snd a =? snd b).

Fixpoint insert_key (k : Z * Z) (l : list (Z * Z)) : list (Z * Z) :=
  match l with
  | [] => [k]
  | y :: t =>
      if key_ltb k y then k :: l
      else if key_eqb k y then l
      else y :: insert_key k t
  end.

(** The group keys of [df.groupby(['id', 'id_2'])], sorted. *)
Definition group_keys (df : list Observation) : list (Z * Z) :=
  fold_right insert_key [] (map (fun o => (id o, id_2 o)) df).

Definition group (df : list Observation) (k : Z * Z) : list Observation :=
  filter (fun o => key_eqb (id o, id_2 o) k) df.

(** [x.max()] and [x.min()] on the times of a group: a group is never empty,
    the head seeds the fold. *)
Definition series_max (x : list Z) : Z := fold_right Z.max (hd 0 x) x.
Definition series_min (x : list Z) : Z := fold_right Z.min (hd 0 x) x.

(** [lambda x: len(set(x)) == 7]. *)
Definition all_days_covered (x : list Z) : bool :=
  Nat.eqb (List.length (sorted_unique x)) 7.

(** [lambda x: x.max() - x.min() == pd.Timedelta(hours=23, minutes=59, seconds=59)]. *)
Definition full_day_covered (x : list Z) : outcome bool :=
  span <- Clock.sub (Clock.TimeOfDay (series_max x)) (Clock.TimeOfDay (series_min x)) ;;
  Ok (Clock.eqb span (Clock.Delta (Clock.Timedelta 23 59 59))).

(** [time_check(df)]: the boolean per (id, id_2) group. *)
Definition time_check (df : list Observation) : outcome (list (Z * Z * bool)) :=
  let day_of_week := fun g => map (fun o => Clock.weekday (timestamp o)) g in
  let time_of_day := fun g => map (fun o => Clock.time_of_day (timestamp o)) g in
  let keys := group_keys df in
  days <- mapM (fun k => Ok (all_days_covered (day_of_week (group df k)))) keys ;;
  times <- mapM (fun k => full_day_covered (time_of_day (group df k))) keys ;;
  Ok (combine keys (zip_with andb days times)).

End Task1.

(** ** Example data *)

Module Examples.
Import Pandas Frame.

(** A parser that accepts nothing: enough to run the examples, which never
    reach it. *)
Definition no_parse : string -> option Z := fun _ => None.
Definition no_epoch : float -> option Z := fun _ => None.

(** Monday 2023-12-04, 12:00:00, in nanoseconds since the epoch. *)
Definition monday_noon : Z := 1701691200 * 1000000000.

(** The toll row of (1, 2, 10) with a Monday-noon start supplied by the caller. *)
Definition monday_noon_tolls : DataFrame :=
  mkFrame [mkRow 1 2 10]
    [("moto", Float64 [8]); ("car", Float64 [12]); ("rv", Float64 [15]);
     ("bus", Float64 [22]); ("truck", Float64 [36]);
     ("start_day", Datetime64 [Some monday_noon]);
     ("start_time", Object [PyTime (Clock.time 12 0 0)]);
     ("end_day", Datetime64 [Some monday_noon]);
     ("end_time", Object [PyTime (Clock.time 13 0 0)])]%string%float.

(** Saturday 2023-12-09, 09:00:00, in nanoseconds since the epoch. *)
Definition saturday_morning : Z := 1702112400 * 1000000000.

(** The same toll row with a Saturday-morning start supplied by the caller. *)
Definition saturday_tolls : DataFrame :=
  mkFrame [mkRow 1 2 10]
    [("moto", Float64 [8]); ("car", Float64 [12]); ("rv", Float64 [15]);
     ("bus", Float64 [22]); ("truck", Float64 [36]);
     ("start_day", Datetime64 [Some saturday_morning]);
     ("start_time", Object [PyTime (Clock.time 9 0 0)]);
     ("end_day", Datetime64 [Some saturday_morning]);
     ("end_time", Object [PyTime (Clock.time 10 0 0)])]%string%float.

(** A toll table without a record: the five vehicle columns, no temporal
    column. *)
Definition empty_tolls : DataFrame :=
  mkFrame []
    [("moto", Float64 []); ("car", Float64 []); ("rv", Float64 []);
     ("bus", Float64 []); ("truck", Float64 [])]%string.

(** Monday 2023-12-04, 00:00:00, in seconds since the epoch. *)
Definition monday : Z := 1701648000.

(** The group (7, 8): one observation per weekday at midnight, the Sunday one
    at 23:59:59. *)
Definition full_week : list Task1.Observation :=
  map (fun d => Task1.mkObservation 7 8
                  ((monday + d * 86400 + (if d =? 6 then 86399 else 0)) * 1000000000))
      [0; 1; 2; 3; 4; 5; 6].

End Examples.

(** ** submissions/python_task_1.py: the functions over the vehicle table *)

Module Task1Counts.
Import Pandas.

(** One row of the vehicle table, with its index label and the columns the
    functions read. *)
Record Vehicle : Type := mkVehicle {
  label : Z;
  route : Z;
  car : float;
  bus : float;
  truck : float
}.

(** What a call can do: return, raise NameError on an unbound global name, or
    raise one of the other exceptions. *)
Inductive result (A : Type) : Type :=
| Returns (a : A)
| NameError (name : string)
| Raises (e : exn).
Arguments Returns {A} a.
Arguments NameError {A} name.
Arguments Raises {A} e.

(** The global names of the module: its only import is [pandas as pd]. *)
Definition module_globals : list string := ["pd"]%string.

(** Reading a global name. *)
Definition global (A : Type) (name : string) (k : result A) : result A :=
  if existsb (String.eqb name) module_globals then k else NameError name.
Arguments global {A} name k.

(** [sorted(l)] on a list of integers. *)
Fixpoint insert_sorted (x : Z) (l : list Z) : list Z :=
  match l with
  | [] => [x]
  | y :: t => if x <=? y then x :: l else y :: insert_sorted x t
  end.

Definition sorted (l : list Z) : list Z := fold_right insert_sorted [] l.

Fixpoint insert_item (e : string * nat) (l : list (string * nat)) : list (string * nat) :=
  match l with
  | [] => [e]
  | y :: t => if String.leb (fst e) (fst y) then e :: l else y :: insert_item e t
  end.

(** [value_counts().to_dict()]: the distinct values with their counts, missing
    values left out. *)
Fixpoint value_counts (l : list (option string)) : list (string * nat) :=
  match l with
  | [] => []
  | None :: t => value_counts t
  | Some v :: t =>
      let rest := value_counts t in
      if existsb (fun e => String.eqb (fst e) v) rest
      then map (fun e => if String.eqb (fst e) v then (fst e, S (snd e)) else e) rest
      else (v, 1%nat) :: rest
  end.

Section Counts.

(** [np.select] over string choices, were numpy bound: the library's. *)
Variable numpy_select : list (list bool) -> list string -> list string.

(** The two summation routines of pandas, as in [Task2]. *)
Variable series_sum : list float -> float.
Variable group_sum : list float -> float.

(** [get_type_count(df)].  The Series built from the selected labels carries
    the positions 0, 1, ... as its index, so a row reads the label at the
    position its own index label names, and none when there is no such
    position. *)
Definition get_type_count (df : list Vehicle) : result (list (string * nat)) :=
  let conditions :=
    [map (fun r => (car r <=? 15)%float) df;
     map (fun r => (15 <? car r)%float && (car r <=? 25)%float) df;
     map (fun r => (25 <? car r)%float) df] in
  let choices := ["low"; "medium"; "high"]%string in
  global "pd" (global "np"
    (let selected := numpy_select conditions choices in
     let car_type :=
       map (fun r => if label r <? 0 then None
                     else nth_error selected (Z.to_nat (label r))) df in
     let type_count := value_counts car_type in
     Returns (fold_right insert_item [] type_count))).

(** [get_bus_indexes(df)]. *)
Definition get_bus_indexes (df : list Vehicle) : list Z :=
  let bus_mean := Task2.mean_with series_sum (map bus df) in
  let bus_indexes :=
    map label (filter (fun r => (2 * bus_mean <? bus r)%float) df) in
  sorted bus_indexes.

(** [df.groupby('route')['truck'].mean()]. *)
Definition route_means (df : list Vehicle) : list (Z * float) :=
  map (fun k =>
         (k, Task2.mean_with group_sum
               (map truck (filter (fun r => route r =? k) df))))
      (sorted_unique (map route df)).

(** [filter_routes(df)]. *)
Definition filter_routes (df : list Vehicle) : list Z :=
  let routes_above_7 :=
    map fst (filter (fun kx : Z * float => (7 <? snd kx)%float) (route_means df)) in
  sorted routes_above_7.

End Counts.

Section Rounding.

(** [np.round(x, 1)] on one value: the library's. *)
Variable round1 : float -> float.

(** [lambda x: x * 0.75 if x > 20 else x * 1.25]. *)
Definition rescale (x : float) : float :=
  if (20 <? x)%float then (x * 0.75)%float else (x * 1.25)%float.

(** [multiply_matrix(matrix)]. *)
Definition multiply_matrix (matrix : Matrix) : Matrix :=
  let modified_matrix :=
    mkMatrix (index matrix) (columns matrix) (map (map rescale) (values matrix)) in
  mkMatrix (index modified_matrix) (columns modified_matrix)
           (map (map round1) (values modified_matrix)).

End Rounding.

End Task1Counts.

(** ** binary64 facts *)

Module FloatFacts.

Lemma SFadd_comm (prec emax : Z) (x y : spec_float) :
  SFadd prec emax x y = SFadd prec emax y x.
Proof.
  destruct x as [sx|sx| |sx mx ex], y as [sy|sy| |sy my ey]; simpl; try reflexivity;
    try (destruct sx, sy; reflexivity).
  rewrite (Z.min_comm ex ey), Z.add_comm. reflexivity.
Qed.

Lemma add_comm (x y : float) : (x + y)%float = (y + x)%float.
Proof.
  apply Prim2SF_inj. rewrite !FloatAxioms.add_spec. apply SFadd_comm.
Qed.

Lemma leb_nan_l (x : float) : (nan <=? x)%float = false.
Proof.
  rewrite FloatAxioms.leb_spec. reflexivity.
Qed.

Lemma leb_nan_r (x : float) : (x <=? nan)%float = false.
Proof.
  rewrite FloatAxioms.leb_spec. unfold SFleb. destruct (Prim2SF x) as [s|s| |s m e]; reflexivity.
Qed.

Lemma fill_add_comm (v l r : float) : Pandas.fill_add v l r = Pandas.fill_add v r l.
Proof.
  unfold Pandas.fill_add. apply add_comm.
Qed.

End FloatFacts.

(** ** Label axes and labelled frames *)

Module LabelFacts.
Import Pandas.

Lemma insert_label_In (x z : Z) (l : list Z) :
  In z (insert_label x l) <-> z = x \/ In z l.
Proof.
  induction l as [|y t IH]; simpl.
  - intuition.
  - destruct (Z.ltb_spec x y); [simpl; intuition|].
    destruct (Z.eqb_spec x y); simpl; [subst; intuition|].
    rewrite IH. intuition.
Qed.

Lemma sorted_unique_In (z : Z) (l : list Z) : In z (sorted_unique l) <-> In z l.
Proof.
  induction l as [|x t IH]; simpl; [tauto|].
  rewrite insert_label_In, IH. intuition.
Qed.

Lemma insert_label_sorted (x : Z) (l : list Z) :
  StronglySorted Z.lt l -> StronglySorted Z.lt (insert_label x l).
Proof.
  induction 1 as [|y t Hs IH Hall]; simpl.
  - repeat constructor.
  - destruct (Z.ltb_spec x y).
    + constructor; [constructor; assumption|].
      constructor; [assumption|].
      eapply Forall_impl; [|exact Hall]. simpl; intros; lia.
    + destruct (Z.eqb_spec x y); [constructor; assumption|].
      constructor; [assumption|].
      apply Forall_forall. intros z Hz. apply insert_label_In in Hz.
      destruct Hz as [->|Hz]; [lia|].
      rewrite Forall_forall in Hall. auto.
Qed.

Lemma sorted_unique_sorted (l : list Z) : StronglySorted Z.lt (sorted_unique l).
Proof.
  induction l; simpl; [constructor|]. now apply insert_label_sorted.
Qed.

Lemma sorted_NoDup (l : list Z) : StronglySorted Z.lt l -> NoDup l.
Proof.
  induction 1 as [|y t Hs IH Hall]; constructor; [|assumption].
  intro Hin. rewrite Forall_forall in Hall. specialize (Hall _ Hin). lia.
Qed.

(** A strictly increasing list is determined by its elements. *)
Lemma sorted_ext (l l' : list Z) :
  StronglySorted Z.lt l -> StronglySorted Z.lt l' ->
  (forall z, In z l <-> In z l') -> l = l'.
Proof.
  intros Hl. revert l'.
  induction Hl as [|x t Hs IH Hx]; intros l' Hl' Heq.
  - destruct l' as [|y t']; [reflexivity|].
    exfalso. apply (Heq y). now left.
  - destruct Hl' as [|y t' Hs' Hy].
    + exfalso. apply (Heq x). now left.
    + rewrite Forall_forall in Hx, Hy.
      assert (x = y) as ->.
      { destruct (proj1 (Heq x) (or_introl eq_refl)) as [E|Hin]; [now symmetry|].
        destruct (proj2 (Heq y) (or_introl eq_refl)) as [E|Hin']; [assumption|].
        specialize (Hx _ Hin'). specialize (Hy _ Hin). lia. }
      f_equal. apply IH; [assumption|].
      intro z. split; intro Hz.
      * destruct (proj1 (Heq z) (or_intror Hz)) as [E|Hin]; [|assumption].
        specialize (Hx _ Hz). lia.
      * destruct (proj2 (Heq z) (or_intror Hz)) as [E|Hin]; [|assumption].
        specialize (Hy _ Hz). lia.
Qed.

Lemma union_comm (a b : list Z) : union a b = union b a.
Proof.
  apply sorted_ext; try apply sorted_unique_sorted.
  intro z. unfold union. rewrite !sorted_unique_In, !in_app_iff. tauto.
Qed.

Lemma union_In (z : Z) (a b : list Z) : In z (union a b) <-> In z a \/ In z b.
Proof.
  unfold union. now rewrite sorted_unique_In, in_app_iff.
Qed.

Lemma union_sorted (a b : list Z) : StronglySorted Z.lt (union a b).
Proof. apply sorted_unique_sorted. Qed.

Lemma sorted_unique_id (l : list Z) : StronglySorted Z.lt l -> sorted_unique l = l.
Proof.
  intro H. apply sorted_ext; [apply sorted_unique_sorted|assumption|].
  intro z. apply sorted_unique_In.
Qed.

Lemma get_loc_Some (x : Z) (l : list Z) (r : nat) :
  get_loc x l = Some r -> (r < List.length l)%nat /\ nth r l 0 = x.
Proof.
  revert r. induction l as [|y t IH]; simpl; intros r H; [discriminate|].
  destruct (Z.eqb_spec x y).
  - injection H as <-. split; [lia|now subst].
  - destruct (get_loc x t) as [k|]; [|discriminate].
    injection H as <-. destruct (IH k eq_refl). split; [lia|assumption].
Qed.

Lemma get_loc_In (x : Z) (l : list Z) : In x l -> exists r, get_loc x l = Some r.
Proof.
  induction l as [|y t IH]; simpl; [tauto|].
  intros H. destruct (Z.eqb_spec x y); [eauto|].
  destruct H as [H|H]; [congruence|].
  destruct (IH H) as [k ->]. simpl. eauto.
Qed.

Lemma get_loc_None (x : Z) (l : list Z) : ~ In x l -> get_loc x l = None.
Proof.
  intro H. destruct (get_loc x l) as [r|] eqn:E; [|reflexivity].
  apply get_loc_Some in E. destruct E as [Hr <-].
  exfalso. apply H. now apply nth_In.
Qed.

(** Reading a labelled frame. *)
Lemma cell_labelled (idx cols : list Z) (f : Z -> Z -> float) (i j : Z) :
  In i idx -> In j cols -> cell (labelled idx cols f) i j = f i j.
Proof.
  intros Hi Hj. unfold cell, labelled. simpl.
  destruct (get_loc_In _ _ Hi) as [r Hr], (get_loc_In _ _ Hj) as [c Hc].
  rewrite Hr, Hc.
  apply get_loc_Some in Hr, Hc. destruct Hr as [Hr <-], Hc as [Hc <-].
  rewrite (nth_indep _ [] (map (f 0) cols)) by now rewrite length_map.
  rewrite (map_nth (fun i => map (f i) cols) idx 0 r).
  rewrite (nth_indep _ nan (f (nth r idx 0) 0)) by now rewrite length_map.
  now rewrite map_nth.
Qed.

Lemma cell_labelled_absent (idx cols : list Z) (f : Z -> Z -> float) (i j : Z) :
  ~ In i idx \/ ~ In j cols -> cell (labelled idx cols f) i j = nan.
Proof.
  intros H. unfold cell, labelled. simpl.
  destruct H as [H|H]; rewrite (get_loc_None _ _ H); [reflexivity|].
  now destruct (get_loc i idx).
Qed.

Lemma labelled_ext (idx cols : list Z) (f g : Z -> Z -> float) :
  (forall i j, In i idx -> In j cols -> f i j = g i j) ->
  labelled idx cols f = labelled idx cols g.
Proof.
  intros H. unfold labelled. f_equal.
  apply map_ext_in. intros i Hi. apply map_ext_in. intros j Hj. now apply H.
Qed.

End LabelFacts.

(** ** The frame operations on labelled frames *)

Module MatrixFacts.
Import Pandas LabelFacts.

Lemma zip_with_map {A B C D : Type} (f : B -> C -> D) (g : A -> B) (h : A -> C)
    (l : list A) :
  zip_with f (map g l) (map h l) = map (fun a => f (g a) (h a)) l.
Proof.
  induction l; simpl; congruence.
Qed.

Lemma map_nth_seq (l : list Z) (h : Z -> list float) :
  map (fun c => h (nth c l 0)) (seq 0 (List.length l)) = map h l.
Proof.
  rewrite <- (map_map (fun c => nth c l 0) h). f_equal.
  induction l as [|x t IH]; simpl; [reflexivity|].
  f_equal. rewrite <- seq_shift, map_map. exact IH.
Qed.

Lemma fillna_labelled (v : float) (idx cols : list Z) (f : Z -> Z -> float) :
  fillna v (labelled idx cols f)
  = labelled idx cols (fun i j => if isna (f i j) then v else f i j).
Proof.
  unfold fillna, labelled. simpl. f_equal.
  rewrite map_map. apply map_ext. intro i. now rewrite map_map.
Qed.

Lemma transpose_labelled (idx cols : list Z) (f : Z -> Z -> float) :
  transpose (labelled idx cols f) = labelled cols idx (fun j i => f i j).
Proof.
  unfold transpose, labelled. simpl. f_equal.
  rewrite <- (map_nth_seq cols (fun j => map (fun i => f i j) idx)).
  apply map_ext_in. intros c Hc. apply in_seq in Hc.
  rewrite map_map. apply map_ext. intro i.
  rewrite (nth_indep _ nan (f i 0)) by (rewrite length_map; lia).
  apply map_nth.
Qed.

Lemma add_labelled (a b : Matrix) (v : float) :
  add a b v
  = labelled (union (index a) (index b)) (union (columns a) (columns b))
      (fun i j => fill_add v (cell a i j) (cell b i j)).
Proof.
  unfold add, reindex, labelled. simpl. f_equal.
  rewrite zip_with_map. apply map_ext. intro i. apply zip_with_map.
Qed.

Lemma replace_nth_app (pre suf : list float) (x v : float) :
  replace_nth (List.length pre) (pre ++ x :: suf) v = pre ++ v :: suf.
Proof.
  induction pre; simpl; congruence.
Qed.

Lemma fill_diagonal_from_labelled (v : float) (f : Z -> Z -> float)
    (pre suf : list Z) :
  NoDup (pre ++ suf) ->
  fill_diagonal_from (List.length pre)
    (map (fun i => map (f i) (pre ++ suf)) suf) v
  = map (fun i => map (fun j => if i =? j then v else f i j) (pre ++ suf)) suf.
Proof.
  revert pre. induction suf as [|x t IH]; intros pre Hnd; simpl; [reflexivity|].
  f_equal.
  - rewrite !map_app. simpl.
    rewrite <- (length_map (f x) pre), replace_nth_app.
    rewrite Z.eqb_refl.
    apply NoDup_remove_2 in Hnd.
    f_equal; [|f_equal]; apply map_ext_in; intros j Hj;
      (destruct (Z.eqb_spec x j); [subst; exfalso; apply Hnd, in_or_app; auto|reflexivity]).
  - specialize (IH (pre ++ [x])).
    rewrite <- !app_assoc in IH. simpl in IH.
    rewrite length_app in IH. simpl in IH.
    replace (List.length pre + 1)%nat with (S (List.length pre)) in IH by lia.
    apply IH. exact Hnd.
Qed.

Lemma fill_diagonal_labelled (idx : list Z) (f : Z -> Z -> float) (v : float) :
  NoDup idx ->
  fill_diagonal true (labelled idx idx f) v
  = labelled idx idx (fun i j => if i =? j then v else f i j).
Proof.
  intro H. unfold fill_diagonal, labelled. simpl. f_equal.
  exact (fill_diagonal_from_labelled v f [] idx H).
Qed.

Lemma labels_eqb_eq (a b : list Z) : labels_eqb a b = true <-> a = b.
Proof.
  revert b. induction a as [|x a IH]; intros [|y b]; simpl;
    try (split; [reflexivity || discriminate | reflexivity || discriminate]).
  rewrite andb_true_iff, Z.eqb_eq, IH. split.
  - intros [-> ->]. reflexivity.
  - intro H. injection H as -> ->. auto.
Qed.

Lemma combine_map_r {A B : Type} (g : A -> B) (l : list A) :
  combine l (map g l) = map (fun a => (a, g a)) l.
Proof.
  induction l; simpl; congruence.
Qed.

Lemma stack_labelled (idx cols : list Z) (f : Z -> Z -> float) :
  stack (labelled idx cols f)
  = flat_map (fun i => filter (fun e : Z * Z * float => negb (isna (snd e)))
                         (map (fun j => (i, j, f i j)) cols)) idx.
Proof.
  unfold stack, labelled. simpl.
  rewrite combine_map_r, flat_map_concat_map, map_map, <- flat_map_concat_map.
  apply flat_map_ext. intro i. simpl.
  now rewrite combine_map_r, map_map.
Qed.

End MatrixFacts.

(** ** The distance matrix in closed form *)

Module DistanceFacts.
Import Pandas Frame Task2 FloatFacts LabelFacts MatrixFacts.

Lemma In_dec_Z (x : Z) (l : list Z) : {In x l} + {~ In x l}.
Proof. apply in_dec, Z.eq_dec. Qed.

Lemma cell_transpose_labelled (idx cols : list Z) (f : Z -> Z -> float) (i j : Z) :
  cell (transpose (labelled idx cols f)) i j = cell (labelled idx cols f) j i.
Proof.
  rewrite transpose_labelled.
  destruct (In_dec_Z i cols) as [Hi|Hi], (In_dec_Z j idx) as [Hj|Hj].
  - now rewrite !cell_labelled.
  - rewrite !cell_labelled_absent; auto.
  - rewrite !cell_labelled_absent; auto.
  - rewrite !cell_labelled_absent; auto.
Qed.

Lemma pivoted_labelled (df : DataFrame) :
  exists f, pivoted df
            = labelled (sorted_unique (map id_start (rows df)))
                       (sorted_unique (map id_end (rows df))) f.
Proof.
  unfold pivoted. rewrite fillna_labelled. eauto.
Qed.

Lemma identifiers_sorted (df : DataFrame) : StronglySorted Z.lt (identifiers df).
Proof. apply union_sorted. Qed.

Lemma identifiers_In (df : DataFrame) (z : Z) :
  In z (identifiers df)
  <-> In z (map id_start (rows df)) \/ In z (map id_end (rows df)).
Proof.
  unfold identifiers. now rewrite union_In, !sorted_unique_In.
Qed.

(** Reading the pivoted, zero-filled table. *)
Lemma pivoted_cell (df : DataFrame) (i j : Z) :
  In i (map id_start (rows df)) -> In j (map id_end (rows df)) ->
  cell (pivoted df) i j
  = if isna (pivot_value (rows df) i j) then 0%float else pivot_value (rows df) i j.
Proof.
  intros Hi Hj. unfold pivoted. rewrite fillna_labelled.
  apply cell_labelled; now apply sorted_unique_In.
Qed.

Lemma pivoted_cell_absent (df : DataFrame) (i j : Z) :
  ~ In i (map id_start (rows df)) \/ ~ In j (map id_end (rows df)) ->
  cell (pivoted df) i j = nan.
Proof.
  intros H. unfold pivoted. rewrite fillna_labelled.
  apply cell_labelled_absent. rewrite !sorted_unique_In. exact H.
Qed.

(** A frame that is not aligned has an identifier whose diagonal cell is
    missing on both sides of the sum. *)
Lemma unaligned_diagonal_missing (df : DataFrame) :
  (forall z, In z (identifiers df) ->
             isna (fill_add 0 (cell (pivoted df) z z) (cell (pivoted df) z z)) = false) ->
  sorted_unique (map id_start (rows df)) = sorted_unique (map id_end (rows df)).
Proof.
  intro Hna.
  assert (Hboth : forall z, In z (identifiers df) ->
            In z (map id_start (rows df)) /\ In z (map id_end (rows df))).
  { intros z Hz. specialize (Hna z Hz).
    destruct (In_dec_Z z (map id_start (rows df))) as [Hs|Hs];
      [destruct (In_dec_Z z (map id_end (rows df))) as [He|He]; [auto|]|];
      rewrite pivoted_cell_absent in Hna by auto; discriminate. }
  apply sorted_ext; try apply sorted_unique_sorted.
  intro z. rewrite !sorted_unique_In. split; intro H.
  - apply Hboth, identifiers_In. auto.
  - apply Hboth, identifiers_In. auto.
Qed.

(** [aligned] compares the identifiers that start a row with those that end
    one. *)
Lemma aligned_iff (df : DataFrame) :
  aligned df = true
  <-> sorted_unique (map id_start (rows df)) = sorted_unique (map id_end (rows df)).
Proof.
  unfold aligned, indexed_same, pivoted. rewrite fillna_labelled.
  cbn [index columns transpose labelled].
  rewrite andb_true_iff, !labels_eqb_eq. split; [tauto|]. intro H. now rewrite H.
Qed.

Lemma identifiers_aligned (df : DataFrame) :
  aligned df = true -> identifiers df = sorted_unique (map id_start (rows df)).
Proof.
  intro H. apply aligned_iff in H. unfold identifiers. rewrite <- H.
  apply sorted_ext; [apply union_sorted|apply sorted_unique_sorted|].
  intro z. rewrite union_In. tauto.
Qed.

(** The matrix in closed form: the filled sum of the pivoted cell and its
    mirror, with a zero diagonal when the write of line 19 reaches it. *)
Lemma calculate_distance_matrix_labelled (df : DataFrame) (M : Matrix) :
  calculate_distance_matrix df = Ok M ->
  M = labelled (identifiers df) (identifiers df) (distance_cell df).
Proof.
  unfold calculate_distance_matrix, pivot.
  destruct (duplicated (rows df)); simpl; [discriminate|].
  intro H. injection H as <-.
  change (fillna 0 _) with (pivoted df).
  rewrite add_labelled.
  destruct (pivoted_labelled df) as [f Hf].
  assert (Hidx : index (pivoted df) = sorted_unique (map id_start (rows df)))
    by now rewrite Hf.
  assert (Hcols : columns (pivoted df) = sorted_unique (map id_end (rows df)))
    by now rewrite Hf.
  assert (Hti : index (transpose (pivoted df)) = columns (pivoted df)) by reflexivity.
  assert (Htc : columns (transpose (pivoted df)) = index (pivoted df)) by reflexivity.
  rewrite Hti, Htc, Hidx, Hcols.
  rewrite (union_comm (sorted_unique (map id_end (rows df)))).
  fold (identifiers df). fold (aligned df).
  assert (Hcell : forall i j,
            fill_add 0 (cell (pivoted df) i j) (cell (transpose (pivoted df)) i j)
            = fill_add 0 (cell (pivoted df) i j) (cell (pivoted df) j i)).
  { intros i j. f_equal. rewrite Hf. apply cell_transpose_labelled. }
  unfold distance_cell. destruct (aligned df).
  - rewrite fill_diagonal_labelled by apply sorted_NoDup, identifiers_sorted.
    apply labelled_ext. intros i j _ _. cbn [andb].
    destruct (i =? j); [reflexivity|apply Hcell].
  - unfold fill_diagonal. apply labelled_ext. intros i j _ _. apply Hcell.
Qed.

Lemma calculate_distance_matrix_total (df : DataFrame) :
  duplicated (rows df) = false -> exists M, calculate_distance_matrix df = Ok M.
Proof.
  intro H. unfold calculate_distance_matrix, pivot. rewrite H. simpl. eauto.
Qed.

Lemma calculate_distance_matrix_duplicated (df : DataFrame) :
  duplicated (rows df) = true -> calculate_distance_matrix df = Raise ValueError.
Proof.
  intro H. unfold calculate_distance_matrix, pivot. now rewrite H.
Qed.

End DistanceFacts.

(** ** Unrolled frames *)

Module UnrollFacts.
Import Pandas Frame Task2 FloatFacts LabelFacts MatrixFacts DistanceFacts.

(** Membership in the stacked entries of a labelled frame. *)
Lemma stack_labelled_In (idx cols : list Z) (f : Z -> Z -> float) (e : Z * Z * float) :
  In e (stack (labelled idx cols f))
  <-> exists i j, In i idx /\ In j cols /\ isna (f i j) = false /\ e = (i, j, f i j).
Proof.
  rewrite stack_labelled, in_flat_map. split.
  - intros (i & Hi & He). apply filter_In in He. destruct He as [He Hna].
    apply in_map_iff in He. destruct He as (j & <- & Hj).
    exists i, j. simpl in Hna. apply negb_true_iff in Hna. auto.
  - intros (i & j & Hi & Hj & Hna & ->). exists i. split; [assumption|].
    apply filter_In. split; [apply in_map_iff; eauto|].
    simpl. now rewrite Hna.
Qed.

Lemma unroll_labelled_In (idx cols : list Z) (f : Z -> Z -> float) (r : Row) :
  In r (rows (unroll_distance_matrix (labelled idx cols f)))
  <-> exists i j, In i idx /\ In j cols /\ isna (f i j) = false /\ r = mkRow i j (f i j).
Proof.
  unfold unroll_distance_matrix. simpl. rewrite in_map_iff. split.
  - intros (e & <- & He). apply stack_labelled_In in He.
    destruct He as (i & j & Hi & Hj & Hna & ->). exists i, j. auto.
  - intros (i & j & Hi & Hj & Hna & ->). exists (i, j, f i j). split; [reflexivity|].
    apply stack_labelled_In. exists i, j. auto.
Qed.

(** The keys of the stacked entries never repeat. *)
Lemma stack_labelled_keys_NoDup (idx cols : list Z) (f : Z -> Z -> float) :
  NoDup idx -> NoDup cols -> NoDup (map fst (stack (labelled idx cols f))).
Proof.
  intros Hidx Hcols. rewrite stack_labelled.
  induction Hidx as [|i t Hi Hnd IH]; simpl; [constructor|].
  rewrite map_app. apply NoDup_app.
  - clear -Hcols. induction Hcols as [|j u Hj Hnd IH]; simpl; [constructor|].
    destruct (negb (isna (f i j))); simpl; [|assumption].
    constructor; [|assumption].
    intro Hin. apply in_map_iff in Hin. destruct Hin as (e & He & Hin).
    apply filter_In in Hin. destruct Hin as [Hin _].
    apply in_map_iff in Hin. destruct Hin as (j' & <- & Hj').
    simpl in He. injection He as ->. contradiction.
  - exact IH.
  - intros k Hk Hk'.
    apply in_map_iff in Hk. destruct Hk as (e & <- & He).
    apply filter_In in He. destruct He as [He _].
    apply in_map_iff in He. destruct He as (j & <- & Hj).
    apply in_map_iff in Hk'. destruct Hk' as (e' & He' & Hin').
    apply in_flat_map in Hin'. destruct Hin' as (i' & Hi' & Hin').
    apply filter_In in Hin'. destruct Hin' as [Hin' _].
    apply in_map_iff in Hin'. destruct Hin' as (j' & <- & Hj').
    simpl in He'. injection He' as -> ->. contradiction.
Qed.

Lemma keyed_true (i j : Z) (r : Row) : keyed i j r = true <-> key r = (i, j).
Proof.
  unfold keyed, key. rewrite andb_true_iff, !Z.eqb_eq. split.
  - intros [-> ->]. reflexivity.
  - intro H. injection H as -> ->. auto.
Qed.

Lemma duplicated_false (rs : list Row) : NoDup (map key rs) -> duplicated rs = false.
Proof.
  induction rs as [|r t IH]; simpl; intro H; [reflexivity|].
  inversion H as [|? ? Hr Ht]; subst.
  rewrite (IH Ht), orb_false_r.
  destruct (existsb (keyed (id_start r) (id_end r)) t) eqn:E; [|reflexivity].
  apply existsb_exists in E. destruct E as (r' & Hin & Hk).
  apply keyed_true in Hk. exfalso. apply Hr.
  apply in_map_iff. exists r'. split; [|assumption]. exact Hk.
Qed.

Lemma NoDup_map_filter {A B : Type} (g : A -> B) (p : A -> bool) (l : list A) :
  NoDup (map g l) -> NoDup (map g (filter p l)).
Proof.
  induction l as [|a t IH]; simpl; intro H; [constructor|].
  inversion H as [|? ? Ha Ht]; subst.
  destruct (p a); simpl; [|auto].
  constructor; [|auto].
  intro Hin. apply Ha. apply in_map_iff in Hin. destruct Hin as (x & Hx & Hin).
  apply filter_In in Hin. apply in_map_iff. exists x. tauto.
Qed.

(** An unrolled frame, with or without its diagonal, can be pivoted again. *)
Lemma unrolled_not_duplicated (idx cols : list Z) (f : Z -> Z -> float) :
  NoDup idx -> NoDup cols ->
  duplicated (rows (exclude_diagonal (unroll_distance_matrix (labelled idx cols f))))
  = false.
Proof.
  intros Hidx Hcols. apply duplicated_false. simpl.
  apply NoDup_map_filter. rewrite map_map.
  rewrite (map_ext _ fst) by (intros [[a b] c]; reflexivity).
  exact (stack_labelled_keys_NoDup idx cols f Hidx Hcols).
Qed.

Lemma pivot_value_unique (rs : list Row) (i j : Z) (x : float) :
  In (mkRow i j x) rs ->
  (forall r, In r rs -> key r = (i, j) -> distance r = x) ->
  pivot_value rs i j = x.
Proof.
  intros Hin Huniq. unfold pivot_value.
  destruct (find (keyed i j) rs) as [r|] eqn:E.
  - apply find_some in E. destruct E as [Hr Hk]. apply keyed_true in Hk. auto.
  - apply (find_none _ _ E) in Hin.
    unfold keyed in Hin. simpl in Hin. now rewrite !Z.eqb_refl in Hin.
Qed.

Lemma pivot_value_absent (rs : list Row) (i j : Z) :
  (forall r, In r rs -> key r <> (i, j)) -> pivot_value rs i j = nan.
Proof.
  intros H. unfold pivot_value.
  destruct (find (keyed i j) rs) as [r|] eqn:E; [|reflexivity].
  apply find_some in E. destruct E as [Hr Hk]. apply keyed_true in Hk.
  now apply H in Hr.
Qed.

End UnrollFacts.

(** ** Unrolling and building again *)

Module RoundTripFacts.
Import Pandas Frame Task2 FloatFacts LabelFacts MatrixFacts DistanceFacts UnrollFacts.

Lemma other_label (U : list Z) (i : Z) :
  NoDup U -> (2 <= List.length U)%nat -> exists j, In j U /\ j <> i.
Proof.
  intros Hnd Hlen. destruct U as [|a [|b t]]; simpl in Hlen; try lia.
  assert (a <> b).
  { inversion Hnd as [|? ? Ha _]; subst. intros ->. apply Ha. now left. }
  destruct (Z.eq_dec a i) as [->|Ha].
  - exists b. split; [simpl; auto|congruence].
  - exists a. split; [simpl; auto|assumption].
Qed.

Lemma off_diagonal_In (U : list Z) (h : Z -> Z -> float) (r : Row) :
  (forall i j, In i U -> In j U -> isna (h i j) = false) ->
  In r (rows (exclude_diagonal (unroll_distance_matrix (labelled U U h))))
  <-> exists i j, In i U /\ In j U /\ i <> j /\ r = mkRow i j (h i j).
Proof.
  intro Hna. unfold exclude_diagonal. cbn [rows].
  rewrite filter_In, unroll_labelled_In. split.
  - intros [(i & j & Hi & Hj & _ & ->) Hne]. simpl in Hne.
    apply negb_true_iff, Z.eqb_neq in Hne. exists i, j. auto.
  - intros (i & j & Hi & Hj & Hne & ->). split.
    + exists i, j. auto.
    + simpl. now apply negb_true_iff, Z.eqb_neq.
Qed.

Lemma union_idem (U : list Z) : StronglySorted Z.lt U -> union U U = U.
Proof.
  intro H. apply sorted_ext; [apply union_sorted|assumption|].
  intro z. rewrite union_In. tauto.
Qed.

Lemma fill_add_present (v a b : float) :
  isna a = false -> isna b = false -> fill_add v a b = (a + b)%float.
Proof.
  intros Ha Hb. unfold fill_add. now rewrite Ha, Hb.
Qed.

(** Unrolling a complete zero-diagonal frame, dropping the self-pairs and
    building the matrix again adds every cell to its mirror. *)
Lemma roundtrip_labelled (U : list Z) (h : Z -> Z -> float) :
  StronglySorted Z.lt U -> (2 <= List.length U)%nat ->
  (forall i j, In i U -> In j U -> isna (h i j) = false) ->
  (forall i, In i U -> h i i = 0%float) ->
  calculate_distance_matrix
    (exclude_diagonal (unroll_distance_matrix (labelled U U h)))
  = Ok (labelled U U (fun i j => (h i j + h j i)%float)).
Proof.
  intros Hs Hlen Hna Hdiag.
  pose proof (sorted_NoDup U Hs) as Hnd.
  set (df' := exclude_diagonal (unroll_distance_matrix (labelled U U h))).
  destruct (calculate_distance_matrix_total df'
              (unrolled_not_duplicated U U h Hnd Hnd)) as [M' HM'].
  rewrite HM'. f_equal.
  rewrite (calculate_distance_matrix_labelled _ _ HM').
  assert (Hstart : sorted_unique (map id_start (rows df')) = U).
  { apply sorted_ext; [apply sorted_unique_sorted|assumption|].
    intro z. rewrite sorted_unique_In, in_map_iff. split.
    - intros (r & <- & Hr). apply (off_diagonal_In U h r Hna) in Hr.
      destruct Hr as (i & j & Hi & _ & _ & ->). exact Hi.
    - intro Hz. destruct (other_label U z Hnd Hlen) as (j & Hj & Hne).
      exists (mkRow z j (h z j)). split; [reflexivity|].
      apply (off_diagonal_In U h _ Hna). exists z, j. auto. }
  assert (Hend : sorted_unique (map id_end (rows df')) = U).
  { apply sorted_ext; [apply sorted_unique_sorted|assumption|].
    intro z. rewrite sorted_unique_In, in_map_iff. split.
    - intros (r & <- & Hr). apply (off_diagonal_In U h r Hna) in Hr.
      destruct Hr as (i & j & _ & Hj & _ & ->). exact Hj.
    - intro Hz. destruct (other_label U z Hnd Hlen) as (i & Hi & Hne).
      exists (mkRow i z (h i z)). split; [reflexivity|].
      apply (off_diagonal_In U h _ Hna). exists i, z. auto. }
  assert (Hids : identifiers df' = U).
  { unfold identifiers. rewrite Hstart, Hend. now apply union_idem. }
  assert (Hcell : forall i j, In i U -> In j U -> i <> j ->
                              cell (pivoted df') i j = h i j).
  { intros i j Hi Hj Hne. unfold pivoted. rewrite Hstart, Hend, fillna_labelled.
    rewrite cell_labelled by assumption.
    rewrite (pivot_value_unique (rows df') i j (h i j)).
    - now rewrite Hna.
    - apply (off_diagonal_In U h _ Hna). exists i, j. auto.
    - intros r Hr Hk. apply (off_diagonal_In U h r Hna) in Hr.
      destruct Hr as (i' & j' & _ & _ & _ & ->).
      unfold key in Hk. simpl in Hk. injection Hk as -> ->. reflexivity. }
  assert (Halign : aligned df' = true) by (apply aligned_iff; congruence).
  rewrite Hids. apply labelled_ext. intros i j Hi Hj.
  unfold distance_cell. rewrite Halign. cbn [andb].
  destruct (Z.eqb_spec i j) as [->|Hne].
  - rewrite (Hdiag j Hj). reflexivity.
  - rewrite !Hcell by auto. apply fill_add_present; auto.
Qed.

End RoundTripFacts.

(** ** The distance matrix and its unrolling *)

Module DistanceClaims.
Import Pandas Frame Task2 FloatFacts LabelFacts MatrixFacts DistanceFacts UnrollFacts
       RoundTripFacts.

Lemma float_neq (x y : float) :
  (x =? y)%float = false -> (y =? y)%float = true -> x <> y.
Proof.
  intros H Hy ->. congruence.
Qed.

(** C1, as the code has it: on the rows (1,2,10) and (2,1,10) the matrix over
    the identifiers [1,2] is [[0,20],[20,0]], since each direction is added to
    its mirror; unrolled without its diagonal it is [(1,2,20),(2,1,20)], and
    the matrix [[0,10],[10,0]] unrolls to [(1,2,10),(2,1,10)]; the toll row of
    (1,2,10) has car 12.0 and truck 36.0. *)
Theorem end_to_end_example :
  let df := mkFrame [mkRow 1 2 10; mkRow 2 1 10] [] in
  let doubled := mkMatrix [1; 2] [1; 2] [[0; 20]; [20; 0]]%float in
  let single := mkMatrix [1; 2] [1; 2] [[0; 10]; [10; 0]]%float in
  let tolls := calculate_toll_rate (mkFrame [mkRow 1 2 10] []) in
  calculate_distance_matrix df = Ok doubled
  /\ rows (exclude_diagonal (unroll_distance_matrix doubled))
     = [mkRow 1 2 20; mkRow 2 1 20]
  /\ rows (exclude_diagonal (unroll_distance_matrix single))
     = [mkRow 1 2 10; mkRow 2 1 10]
  /\ lookup "car" (extra tolls) = Some (Float64 [12%float])
  /\ lookup "truck" (extra tolls) = Some (Float64 [36%float]).
Proof.
  repeat split; reflexivity.
Qed.

(** C1 as stated fails: the matrix of the two rows is not [[0,10],[10,0]]. *)
Lemma end_to_end_matrix_is_not_single :
  calculate_distance_matrix (mkFrame [mkRow 1 2 10; mkRow 2 1 10] [])
  <> Ok (mkMatrix [1; 2] [1; 2] [[0; 10]; [10; 0]]%float).
Proof.
  intro H.
  apply (f_equal (fun o => match o with Ok m => cell m 1 2 | Raise _ => nan end)) in H.
  vm_compute in H. revert H. now apply float_neq.
Qed.

Lemma distance_matrix_mirror (df : DataFrame) (M : Matrix) :
  calculate_distance_matrix df = Ok M -> forall i j, cell M i j = cell M j i.
Proof.
  intro H. apply calculate_distance_matrix_labelled in H. subst M.
  intros i j.
  destruct (In_dec_Z i (identifiers df)) as [Hi|Hi];
    destruct (In_dec_Z j (identifiers df)) as [Hj|Hj];
    try (rewrite !cell_labelled_absent; auto; fail).
  rewrite !cell_labelled by assumption. unfold distance_cell.
  rewrite (Z.eqb_sym j i). destruct (aligned df && (i =? j)); [reflexivity|].
  apply fill_add_comm.
Qed.

(** Where the same identifiers start and end rows, the diagonal is zero. *)
Lemma aligned_diagonal_zero (df : DataFrame) (i : Z) :
  (forall z, In z (map id_start (rows df)) <-> In z (map id_end (rows df))) ->
  distance_cell df i i = 0%float.
Proof.
  intro Hsame.
  assert (Halign : aligned df = true).
  { apply aligned_iff. apply sorted_ext; try apply sorted_unique_sorted.
    intro z. rewrite !sorted_unique_In. apply Hsame. }
  unfold distance_cell. now rewrite Halign, Z.eqb_refl.
Qed.

(** C8, as the code has it: the matrix is square over one sorted list of
    identifiers, the cells (i,j) and (j,i) hold the same value or are both
    missing (NaN), and the diagonal is zero when the same identifiers occur
    as id_start and as id_end. *)
Theorem distance_matrix_square_mirrored_zero_diagonal (df : DataFrame) (M : Matrix) :
  calculate_distance_matrix df = Ok M ->
  (index M = identifiers df /\ columns M = index M
   /\ List.length (values M) = List.length (index M)
   /\ Forall (fun row => List.length row = List.length (columns M)) (values M))
  /\ (forall i j, cell M i j = cell M j i)
  /\ ((forall z, In z (map id_start (rows df)) <-> In z (map id_end (rows df))) ->
      forall i, In i (index M) -> cell M i i = 0%float).
Proof.
  intro H. pose proof (distance_matrix_mirror df M H) as Hsym.
  apply calculate_distance_matrix_labelled in H. subst M.
  split; [|split].
  - simpl. repeat split.
    + now rewrite length_map.
    + apply Forall_forall. intros row Hrow. apply in_map_iff in Hrow.
      destruct Hrow as (i & <- & _). now rewrite length_map.
  - exact Hsym.
  - intros Hsame i Hi. simpl in Hi. rewrite cell_labelled by assumption.
    now apply aligned_diagonal_zero.
Qed.

Lemma distance_matrix_square_mirrored_zero_diagonal_witness :
  let df := mkFrame [mkRow 1 2 10; mkRow 2 1 10] [] in
  let M := mkMatrix [1; 2] [1; 2] [[0; 20]; [20; 0]]%float in
  (index M = identifiers df /\ columns M = index M
   /\ List.length (values M) = List.length (index M)
   /\ Forall (fun row => List.length row = List.length (columns M)) (values M))
  /\ (forall i j, cell M i j = cell M j i)
  /\ (forall i, In i (index M) -> cell M i i = 0%float).
Proof.
  intros df M.
  destruct (distance_matrix_square_mirrored_zero_diagonal df M eq_refl)
    as (Hsquare & Hmirror & Hzero).
  split; [exact Hsquare|]. split; [exact Hmirror|].
  apply Hzero. intro z. simpl. tauto.
Defined.

(** C8 as stated fails: with the rows (1,2,10) and (3,4,5) the cells (1,3) and
    (3,1) are both NaN, and NaN is not [==] to itself; the diagonal cell (1,1)
    is NaN too, not 0. *)
Lemma distance_matrix_equality_fails_on_missing_cells :
  let df := mkFrame [mkRow 1 2 10; mkRow 3 4 5] [] in
  exists M, calculate_distance_matrix df = Ok M
            /\ In 1 (index M) /\ In 3 (index M)
            /\ (cell M 1 3 =? cell M 3 1)%float = false
            /\ isna (cell M 1 1) = true.
Proof.
  eexists. split; [reflexivity|]. simpl. repeat split; auto.
Qed.

(** C9, as the code has it: unrolling is a plain reshape that keeps the
    diagonal.  A record (i, j, d) is emitted exactly when i and j are
    identifiers of the matrix, d is the cell (i, j) and d is not missing; so
    the self-pair of an identifier is emitted whenever its diagonal cell is
    present. *)
Theorem unroll_emits_present_cells (df : DataFrame) (M : Matrix) :
  calculate_distance_matrix df = Ok M ->
  (forall r, In r (rows (unroll_distance_matrix M))
             <-> In (id_start r) (index M) /\ In (id_end r) (index M)
                 /\ distance r = cell M (id_start r) (id_end r)
                 /\ isna (distance r) = false)
  /\ (forall i, In i (index M) -> isna (cell M i i) = false ->
                In (mkRow i i (cell M i i)) (rows (unroll_distance_matrix M))).
Proof.
  intro H. apply calculate_distance_matrix_labelled in H. subst M.
  set (U := identifiers df). set (h := distance_cell df).
  assert (Hrec : forall r, In r (rows (unroll_distance_matrix (labelled U U h)))
             <-> In (id_start r) U /\ In (id_end r) U
                 /\ distance r = cell (labelled U U h) (id_start r) (id_end r)
                 /\ isna (distance r) = false).
  { intro r. rewrite unroll_labelled_In. split.
    - intros (i & j & Hi & Hj & Hna & ->). cbn [id_start id_end distance].
      rewrite cell_labelled by assumption. auto.
    - intros (Hi & Hj & Hd & Hna). rewrite cell_labelled in Hd by assumption.
      exists (id_start r), (id_end r). rewrite <- Hd.
      destruct r as [i j d]. auto. }
  split; [exact Hrec|].
  intros i Hi Hna. apply Hrec. cbn [id_start id_end distance]. auto.
Qed.

Lemma unroll_emits_present_cells_witness :
  let M := mkMatrix [1; 2] [1; 2] [[0; 20]; [20; 0]]%float in
  (forall r, In r (rows (unroll_distance_matrix M))
             <-> In (id_start r) (index M) /\ In (id_end r) (index M)
                 /\ distance r = cell M (id_start r) (id_end r)
                 /\ isna (distance r) = false)
  /\ (forall i, In i (index M) -> isna (cell M i i) = false ->
                In (mkRow i i (cell M i i)) (rows (unroll_distance_matrix M))).
Proof.
  intro M.
  apply (unroll_emits_present_cells (mkFrame [mkRow 1 2 10; mkRow 2 1 10] []) M).
  reflexivity.
Defined.

(** C9 as stated fails: the matrix [[0,20],[20,0]] over [1,2] unrolls to four
    records, the first of which is the self-pair (1,1,0). *)
Lemma unroll_emits_a_self_pair :
  let M := mkMatrix [1; 2] [1; 2] [[0; 20]; [20; 0]]%float in
  rows (unroll_distance_matrix M)
  = [mkRow 1 1 0; mkRow 1 2 20; mkRow 2 1 20; mkRow 2 2 0]
  /\ exists r, In r (rows (unroll_distance_matrix M)) /\ id_start r = id_end r.
Proof.
  split; [reflexivity|]. exists (mkRow 1 1 0). split; [now left|reflexivity].
Qed.

(** C7, as the code has it: for a matrix with at least two identifiers and no
    missing cell, unrolling, dropping the self-pairs and building the matrix
    again keeps the identifiers and puts in every cell the sum of the
    original cell and its mirror, that is the original distance added to
    itself. *)
Theorem round_trip_adds_mirror (df : DataFrame) (M : Matrix) :
  calculate_distance_matrix df = Ok M ->
  (2 <= List.length (index M))%nat ->
  (forall i j, In i (index M) -> In j (index M) -> isna (cell M i j) = false) ->
  calculate_distance_matrix (exclude_diagonal (unroll_distance_matrix M))
  = Ok (labelled (index M) (columns M)
          (fun i j => (cell M i j + cell M j i)%float))
  /\ (forall i j, (cell M i j + cell M j i = cell M i j + cell M i j)%float).
Proof.
  intros H Hlen Hna.
  pose proof (distance_matrix_mirror df M H) as Hsym.
  apply calculate_distance_matrix_labelled in H.
  set (h := distance_cell df) in H.
  split; [|intros i j; now rewrite (Hsym j i)].
  subst M. cbn [index columns] in *.
  assert (Hcell : forall i j, In i (identifiers df) -> In j (identifiers df) ->
                  cell (labelled (identifiers df) (identifiers df) h) i j = h i j)
    by (intros; now apply cell_labelled).
  assert (Halign : aligned df = true).
  { destruct (aligned df) eqn:E; [reflexivity|].
    rewrite <- E. apply aligned_iff, unaligned_diagonal_missing.
    intros z Hz. specialize (Hna z z Hz Hz). rewrite Hcell in Hna by assumption.
    unfold h, distance_cell in Hna. rewrite E in Hna. exact Hna. }
  rewrite roundtrip_labelled.
  - f_equal. apply labelled_ext. intros i j Hi Hj. now rewrite !Hcell.
  - apply identifiers_sorted.
  - exact Hlen.
  - intros i j Hi Hj. rewrite <- Hcell by assumption. now apply Hna.
  - intros i Hi. unfold h, distance_cell. now rewrite Halign, Z.eqb_refl.
Qed.

Lemma round_trip_adds_mirror_witness :
  let M := mkMatrix [1; 2] [1; 2] [[0; 20]; [20; 0]]%float in
  calculate_distance_matrix (exclude_diagonal (unroll_distance_matrix M))
  = Ok (labelled (index M) (columns M)
          (fun i j => (cell M i j + cell M j i)%float))
  /\ (forall i j, (cell M i j + cell M j i = cell M i j + cell M i j)%float).
Proof.
  intro M.
  apply (round_trip_adds_mirror (mkFrame [mkRow 1 2 10; mkRow 2 1 10] []) M).
  - reflexivity.
  - simpl. lia.
  - intros i j Hi Hj. simpl in Hi, Hj.
    destruct Hi as [<-|[<-|[]]], Hj as [<-|[<-|[]]]; reflexivity.
Defined.

(** C7 as stated fails: the matrix [[0,20],[20,0]] of the rows (1,2,10) and
    (2,1,10) comes back from the round trip as [[0,40],[40,0]]. *)
Lemma round_trip_does_not_reproduce :
  let df := mkFrame [mkRow 1 2 10; mkRow 2 1 10] [] in
  let M := mkMatrix [1; 2] [1; 2] [[0; 20]; [20; 0]]%float in
  calculate_distance_matrix df = Ok M
  /\ rows (exclude_diagonal (unroll_distance_matrix M)) = [mkRow 1 2 20; mkRow 2 1 20]
  /\ calculate_distance_matrix (exclude_diagonal (unroll_distance_matrix M))
     = Ok (mkMatrix [1; 2] [1; 2] [[0; 40]; [40; 0]]%float)
  /\ calculate_distance_matrix (exclude_diagonal (unroll_distance_matrix M)) <> Ok M.
Proof.
  split; [reflexivity|]. split; [reflexivity|]. split; [reflexivity|].
  intro H.
  apply (f_equal (fun o => match o with Ok m => cell m 1 2 | Raise _ => nan end)) in H.
  vm_compute in H. revert H. now apply float_neq.
Qed.

End DistanceClaims.

(** ** Named columns *)

Module FrameFacts.
Import Pandas Frame.

Lemma lookup_assign_same (name : string) (c : column) (cols : list (string * column)) :
  lookup name (assign name c cols) = Some c.
Proof.
  induction cols as [|[k c'] t IH]; simpl.
  - now rewrite String.eqb_refl.
  - destruct (String.eqb k name) eqn:E; simpl; rewrite E; [reflexivity|exact IH].
Qed.

Lemma lookup_assign_other (name name' : string) (c : column)
    (cols : list (string * column)) :
  name <> name' -> lookup name' (assign name c cols) = lookup name' cols.
Proof.
  intro Hne. induction cols as [|[k c'] t IH]; simpl.
  - apply String.eqb_neq in Hne. now rewrite Hne.
  - destruct (String.eqb k name) eqn:E; simpl.
    + apply String.eqb_eq in E. subst k.
      apply String.eqb_neq in Hne. now rewrite Hne.
    + destruct (String.eqb k name'); [reflexivity|exact IH].
Qed.

(** Reading back a column through a chain of assignments to literal names. *)
Ltac lookup_simpl :=
  repeat (rewrite lookup_assign_same
          || rewrite lookup_assign_other by (intro; discriminate)).

Lemma lookup_drop_other (name name' : string) (cols : list (string * column)) :
  name <> name' ->
  lookup name' (filter (fun kc => negb (String.eqb (fst kc) name)) cols)
  = lookup name' cols.
Proof.
  intro Hne. induction cols as [|[k c] t IH]; simpl; [reflexivity|].
  destruct (String.eqb k name) eqn:E; simpl.
  - apply String.eqb_eq in E. subst k.
    apply String.eqb_neq in Hne. now rewrite Hne.
  - destruct (String.eqb k name'); [reflexivity|exact IH].
Qed.

Lemma lookup_drop_same (name : string) (cols : list (string * column)) :
  lookup name (filter (fun kc => negb (String.eqb (fst kc) name)) cols) = None.
Proof.
  induction cols as [|[k c] t IH]; simpl; [reflexivity|].
  destruct (String.eqb k name) eqn:E; simpl; [exact IH|now rewrite E].
Qed.

Lemma assign_app_absent (name : string) (c : column) (cols more : list (string * column)) :
  lookup name cols = None -> assign name c (cols ++ more) = cols ++ assign name c more.
Proof.
  induction cols as [|[k c'] t IH]; simpl; [reflexivity|].
  destruct (String.eqb k name); [discriminate|].
  intro H. now rewrite IH.
Qed.

Lemma lookup_In (name : string) (c : column) (cols : list (string * column)) :
  lookup name cols = Some c -> In (name, c) cols.
Proof.
  induction cols as [|[k c'] t IH]; simpl; [discriminate|].
  destruct (String.eqb k name) eqn:E.
  - apply String.eqb_eq in E. intro H. injection H as ->. subst. now left.
  - auto.
Qed.

Lemma well_formed_length (df : DataFrame) (name : string) (c : column) :
  well_formed df -> lookup name (extra df) = Some c ->
  column_length c = List.length (rows df).
Proof.
  intros Hwf H. apply lookup_In in H.
  unfold well_formed in Hwf. rewrite Forall_forall in Hwf.
  exact (Hwf _ H).
Qed.

Lemma zip_with_repeat_r {A B C : Type} (f : A -> B -> C) (l : list A) (y : B) (n : nat) :
  List.length l = n -> zip_with f l (repeat y n) = map (fun x => f x y) l.
Proof.
  intros <-. induction l; simpl; congruence.
Qed.


Lemma zip_with_repeat {A B C : Type} (f : A -> B -> C) (x : A) (y : B) (n : nat) :
  zip_with f (repeat x n) (repeat y n) = repeat (f x y) n.
Proof.
  induction n; simpl; congruence.
Qed.


Lemma mapM_repeat {A B : Type} (g : A -> outcome B) (x : A) (y : B) (n : nat) :
  g x = Ok y -> mapM g (repeat x n) = Ok (repeat y n).
Proof.
  intro H. induction n; simpl; [reflexivity|]. now rewrite H, IHn.
Qed.


End FrameFacts.

(** ** Toll rates *)

Module TollFacts.
Import Pandas Frame Task2 FrameFacts.

(** C10: every vehicle column is the distance column times its rate, the rate
    table has the five vehicle types and no other, and nothing else in the
    frame changes. *)
Theorem toll_rate_columns (df : DataFrame) :
  let out := calculate_toll_rate df in
  let scaled rate :=
    Some (Float64 (map (fun r => (distance r * rate)%float) (rows df))) in
  rows out = rows df
  /\ lookup "moto" (extra out) = scaled 0.8%float
  /\ lookup "car" (extra out) = scaled 1.2%float
  /\ lookup "rv" (extra out) = scaled 1.5%float
  /\ lookup "bus" (extra out) = scaled 2.2%float
  /\ lookup "truck" (extra out) = scaled 3.6%float
  /\ map fst toll_rates = ["moto"; "car"; "rv"; "bus"; "truck"]%string
  /\ (forall name, ~ In name (map fst toll_rates) ->
                   lookup name (extra out) = lookup name (extra df)).
Proof.
  intros out scaled. subst out scaled.
  unfold calculate_toll_rate, toll_rates, setitem. cbn [fold_left rows extra].
  rewrite !map_map.
  repeat split; lookup_simpl; try reflexivity.
  intros name Hname. cbn [map fst] in Hname.
  rewrite !lookup_assign_other; [reflexivity|..];
    intro E; apply Hname; subst name; simpl; tauto.
Qed.

End TollFacts.

(** ** Time-based toll rates *)

Module TimeBasedFacts.
Import Pandas Frame Task2 FrameFacts.

Section WithParser.

Variable parse_datetime : string -> option Z.
Variable datetime_of_float : float -> option Z.

Lemma to_datetime_none (n : nat) :
  to_datetime parse_datetime datetime_of_float (Object (repeat PyNone n)) = Ok (Datetime64 (repeat None n)).
Proof.
  unfold Task2.to_datetime.
  now rewrite (mapM_repeat _ PyNone None n).
Qed.

Lemma all_missing_repeat (n : nat) :
  forallb (fun t : option Z => match t with Some _ => false | None => true end)
          (repeat None n) = true.
Proof.
  induction n; simpl; auto.
Qed.

(** The times of a column of missing dates: a datetime column again when the
    table has a row, the empty object column otherwise. *)
Lemma dt_time_missing (n : nat) :
  dt_time (repeat None n)
  = match n with
    | O => Object []
    | S _ => Datetime64 (repeat None n)
    end.
Proof.
  destruct n as [|n]; [reflexivity|].
  unfold dt_time. cbn [repeat]. fold (repeat (@None Z) n).
  change (None :: repeat None n) with (repeat (@None Z) (S n)).
  now rewrite all_missing_repeat.
Qed.

(** After the first seven lines the day columns are all [NaT] and the time
    columns are the times of all-missing dates, whatever the frame held
    before. *)
Lemma reset_temporal_columns_Ok (df : DataFrame) :
  exists df1,
    reset_temporal_columns parse_datetime datetime_of_float df = Ok df1
    /\ rows df1 = rows df
    /\ lookup "start_day" (extra df1)
       = Some (Datetime64 (repeat None (List.length (rows df))))
    /\ lookup "end_day" (extra df1)
       = Some (Datetime64 (repeat None (List.length (rows df))))
    /\ lookup "start_time" (extra df1)
       = Some (dt_time (repeat None (List.length (rows df))))
    /\ lookup "end_time" (extra df1)
       = Some (dt_time (repeat None (List.length (rows df))))
    /\ (forall name, ~ In name temporal_names ->
                     lookup name (extra df1) = lookup name (extra df)).
Proof.
  unfold Task2.reset_temporal_columns, getitem, setitem. cbn [extra rows].
  do 4 (lookup_simpl; cbn [bind]; rewrite to_datetime_none; cbn [bind dt]).
  eexists. split; [reflexivity|]. cbn [rows extra].
  repeat split; lookup_simpl; try reflexivity.
  intros name Hname.
  rewrite !lookup_assign_other; [reflexivity|..];
    intro E; apply Hname; subst name; simpl; tauto.
Qed.


(** On a table with a row the time column is a datetime column, and the first
    comparison against a [datetime.time] bound raises. *)
Lemma discount_factor_raises (df : DataFrame) :
  rows df <> [] ->
  lookup "start_day" (extra df)
  = Some (Datetime64 (repeat None (List.length (rows df)))) ->
  lookup "start_time" (extra df)
  = Some (dt_time (repeat None (List.length (rows df)))) ->
  discount_factor df = Raise TypeError.
Proof.
  intros Hrows Hday Htime. unfold discount_factor, getitem.
  rewrite Hday, Htime, dt_time_missing.
  destruct (rows df) as [|r rs]; [congruence|]. reflexivity.
Qed.

(** On a table without a row there is nothing to compare. *)
Lemma discount_factor_empty (df : DataFrame) :
  rows df = [] ->
  lookup "start_day" (extra df)
  = Some (Datetime64 (repeat None (List.length (rows df)))) ->
  lookup "start_time" (extra df)
  = Some (dt_time (repeat None (List.length (rows df)))) ->
  discount_factor df = Ok [].
Proof.
  intros Hrows Hday Htime. unfold discount_factor, getitem.
  rewrite Hday, Htime, Hrows. reflexivity.
Qed.

Lemma discount_vehicle_Ok (df : DataFrame) (v : string) (l factor : list float) :
  lookup v (extra df) = Some (Float64 l) ->
  lookup "discount_factor" (extra df) = Some (Float64 factor) ->
  discount_vehicle df v
  = Ok (setitem df v (Float64 (zip_with PrimFloat.mul l factor))).
Proof.
  intros Hv Hf. unfold discount_vehicle, getitem. now rewrite Hv, Hf.
Qed.

(** The loop over the vehicle types, for any list of distinct float columns. *)
Lemma discount_loop (factor : list float) (vs : list string) :
  NoDup vs -> ~ In "discount_factor"%string vs ->
  forall df,
    lookup "discount_factor" (extra df) = Some (Float64 factor) ->
    (forall v, In v vs -> exists l, lookup v (extra df) = Some (Float64 l)) ->
    exists df',
      fold_left (fun acc v => df <- acc ;; discount_vehicle df v) vs (Ok df) = Ok df'
      /\ rows df' = rows df
      /\ (forall v l, In v vs -> lookup v (extra df) = Some (Float64 l) ->
                      lookup v (extra df')
                      = Some (Float64 (zip_with PrimFloat.mul l factor)))
      /\ (forall name, ~ In name vs -> lookup name (extra df') = lookup name (extra df)).
Proof.
  induction 1 as [|v vs Hv Hnd IH]; intros Hdf df Hf Hcols.
  - exists df. simpl. repeat split; auto. intros v l [].
  - destruct (Hcols v (or_introl eq_refl)) as [l Hl].
    cbn [fold_left bind]. rewrite (discount_vehicle_Ok df v l factor Hl Hf).
    set (df2 := setitem df v (Float64 (zip_with PrimFloat.mul l factor))).
    assert (Hother : forall name, name <> v ->
                                  lookup name (extra df2) = lookup name (extra df)).
    { intros name Hne. unfold df2, setitem. cbn [extra].
      apply lookup_assign_other. congruence. }
    destruct (IH (fun H => Hdf (or_intror H)) df2) as (df' & Hrun & Hrows & Hscaled & Hrest).
    + rewrite Hother; [assumption|]. intros E. apply Hdf. now left.
    + intros u Hu. rewrite Hother; [apply Hcols; now right|].
      intros ->. contradiction.
    + exists df'. split; [exact Hrun|]. split; [exact Hrows|]. split.
      * intros u lu [<-|Hu] Hlu.
        -- rewrite Hrest by assumption. unfold df2, setitem. cbn [extra].
           rewrite lookup_assign_same. congruence.
        -- apply Hscaled; [assumption|]. rewrite Hother; [assumption|].
           intros ->. contradiction.
      * intros name Hname. rewrite Hrest by (intro; apply Hname; now right).
        apply Hother. intros ->. apply Hname. now left.
Qed.

Lemma vehicle_types_NoDup : NoDup vehicle_types.
Proof.
  unfold vehicle_types.
  repeat (constructor; [simpl; intuition discriminate|]). constructor.
Qed.

Lemma vehicle_not_temporal (v : string) :
  In v vehicle_types -> v <> "discount_factor"%string /\ ~ In v temporal_names.
Proof.
  unfold vehicle_types, temporal_names. simpl.
  intros [<-|[<-|[<-|[<-|[<-|[]]]]]]; split; try discriminate;
    intuition discriminate.
Qed.

(** The call on a table without a row, whose five vehicle columns are float
    columns. *)
Lemma time_based_empty (df : DataFrame) :
  rows df = [] ->
  well_formed df ->
  (forall v, In v vehicle_types -> exists l, lookup v (extra df) = Some (Float64 l)) ->
  exists out,
    calculate_time_based_toll_rates parse_datetime datetime_of_float df = Ok out
    /\ rows out = []
    /\ (forall v, In v vehicle_types -> lookup v (extra out) = Some (Float64 []))
    /\ lookup "start_day" (extra out) = Some (Datetime64 [])
    /\ lookup "end_day" (extra out) = Some (Datetime64 [])
    /\ lookup "start_time" (extra out) = Some (Object [])
    /\ lookup "end_time" (extra out) = Some (Object [])
    /\ lookup "discount_factor" (extra out) = None
    /\ (forall name, ~ In name vehicle_types -> ~ In name temporal_names ->
                     name <> "discount_factor"%string ->
                     lookup name (extra out) = lookup name (extra df)).
Proof.
  intros Hrows Hwf Hcols.
  destruct (reset_temporal_columns_Ok df)
    as (df1 & Hreset & Hrows1 & Hsd & Hed & Hst & Het & Hrest1).
  unfold calculate_time_based_toll_rates. rewrite Hreset. cbn [bind].
  assert (Hrows1' : rows df1 = []) by congruence.
  rewrite (discount_factor_empty df1 Hrows1')
    by (rewrite Hrows1; assumption).
  cbn [bind]. rewrite Hrows in Hsd, Hed, Hst, Het. cbn [List.length repeat] in *.
  change (dt_time []) with (Object []) in Hst, Het.
  set (df2 := setitem df1 "discount_factor" (Float64 [])).
  assert (Hother : forall name, name <> "discount_factor"%string ->
                                lookup name (extra df2) = lookup name (extra df1)).
  { intros name Hne. unfold df2, setitem. cbn [extra].
    apply lookup_assign_other. congruence. }
  assert (Hveh : forall v, In v vehicle_types ->
                           lookup v (extra df2) = lookup v (extra df)).
  { intros v Hv. destruct (vehicle_not_temporal v Hv) as [Hne Hnt].
    rewrite Hother by assumption. now apply Hrest1. }
  destruct (discount_loop [] vehicle_types vehicle_types_NoDup) with (df := df2)
    as (df3 & Hrun & Hrows3 & Hscaled & Hrest3).
  - unfold vehicle_types. simpl. intuition discriminate.
  - unfold df2, setitem. cbn [extra]. apply lookup_assign_same.
  - intros v Hv. rewrite (Hveh v Hv). now apply Hcols.
  - unfold apply_discount. rewrite Hrun. cbn [bind].
    assert (Hkeep : forall name, ~ In name vehicle_types ->
                      name <> "discount_factor"%string ->
                      lookup name (extra (drop df3 "discount_factor"))
                      = lookup name (extra df1)).
    { intros name Hv Hd. unfold drop. cbn [extra].
      rewrite lookup_drop_other by congruence. rewrite Hrest3 by assumption.
      now apply Hother. }
    eexists. split; [reflexivity|].
    split; [unfold drop; cbn [rows]; rewrite Hrows3; exact Hrows1'|].
    split.
    { intros v Hv. destruct (vehicle_not_temporal v Hv) as [Hne _].
      destruct (Hcols v Hv) as [l Hl].
      unfold drop. cbn [extra]. rewrite lookup_drop_other by congruence.
      rewrite (Hscaled v l Hv) by (now rewrite Hveh).
      pose proof (well_formed_length df v (Float64 l) Hwf Hl) as Hlen.
      rewrite Hrows in Hlen. destruct l; [reflexivity|discriminate]. }
    rewrite !Hkeep by (unfold vehicle_types; simpl; intuition discriminate).
    repeat split; try assumption.
    + unfold drop. cbn [extra]. apply lookup_drop_same.
    + intros name Hv Ht Hd. rewrite Hkeep by assumption. now apply Hrest1.
Qed.

(** C4, as the code has it: when the four temporal columns are absent the
    function does not reject the table; line 94 creates them after the
    columns of the input and lines 97-100 leave them all missing.  On a table
    without a row the call then returns the table with the four columns. *)
Theorem absent_temporal_columns_are_created (df : DataFrame) :
  (forall name, In name temporal_names -> lookup name (extra df) = None) ->
  let n := List.length (rows df) in
  let times := match n with
               | O => Object []
               | S _ => Datetime64 (repeat None n)
               end in
  reset_temporal_columns parse_datetime datetime_of_float df
  = Ok (mkFrame (rows df)
          (extra df ++ [("start_day", Datetime64 (repeat None n));
                        ("start_time", times);
                        ("end_day", Datetime64 (repeat None n));
                        ("end_time", times)]%string))
  /\ (rows df = [] -> well_formed df ->
      (forall v, In v vehicle_types ->
                 exists l, lookup v (extra df) = Some (Float64 l)) ->
      exists out,
        calculate_time_based_toll_rates parse_datetime datetime_of_float df = Ok out
        /\ lookup "start_day" (extra out) = Some (Datetime64 [])
        /\ lookup "end_day" (extra out) = Some (Datetime64 [])
        /\ lookup "start_time" (extra out) = Some (Object [])
        /\ lookup "end_time" (extra out) = Some (Object [])).
Proof.
  intros Habs n times. split.
  - unfold times. rewrite <- dt_time_missing.
    unfold Task2.reset_temporal_columns, getitem, setitem. cbn [extra rows].
    do 4 (lookup_simpl; cbn [bind]; rewrite to_datetime_none; cbn [bind dt]).
    fold n. f_equal. f_equal.
    replace (extra df) with (extra df ++ []) at 1 by apply app_nil_r.
    rewrite !assign_app_absent by (apply Habs; unfold temporal_names; simpl; tauto).
    reflexivity.
  - intros Hrows Hwf Hcols.
    destruct (time_based_empty df Hrows Hwf Hcols)
      as (out & Hout & _ & _ & Hsd & Hed & Hst & Het & _).
    exists out. repeat split; assumption.
Qed.

End WithParser.

End TimeBasedFacts.

(** ** Time-based toll rates on the example frames *)

Module TimeBasedClaims.
Import Pandas Frame Task2 FrameFacts TimeBasedFacts Examples.

Lemma empty_tolls_temporal_columns_absent :
  forall name, In name temporal_names -> lookup name (extra empty_tolls) = None.
Proof.
  intros name Hname. unfold temporal_names in Hname. simpl in Hname.
  destruct Hname as [<-|[<-|[<-|[<-|[]]]]]; reflexivity.
Qed.

Lemma empty_tolls_vehicle_columns :
  forall v, In v vehicle_types -> exists l, lookup v (extra empty_tolls) = Some (Float64 l).
Proof.
  intros v Hv. unfold vehicle_types in Hv. simpl in Hv.
  destruct Hv as [<-|[<-|[<-|[<-|[<-|[]]]]]]; eexists; reflexivity.
Qed.

Lemma empty_tolls_well_formed : well_formed empty_tolls.
Proof.
  repeat constructor.
Qed.

(** C2 at a failing input: a record starting on a Monday at 12:00:00 gets no
    factor at all, where the claim gives it 1.2.  Line 94 overwrites the day
    and the time the caller supplied, the rebuilt columns are all-[NaT]
    datetime columns, and the comparison of line 113 against [datetime.time]
    bounds raises TypeError. *)
Theorem weekday_noon_record_raises_TypeError
    (parse_datetime : string -> option Z) (datetime_of_float : float -> option Z) :
  Clock.weekday monday_noon = 0
  /\ Clock.time_of_day monday_noon = Clock.time 12 0 0
  /\ lookup "start_day" (extra monday_noon_tolls) = Some (Datetime64 [Some monday_noon])
  /\ lookup "start_time" (extra monday_noon_tolls)
     = Some (Object [PyTime (Clock.time 12 0 0)])
  /\ (exists df1,
         reset_temporal_columns parse_datetime datetime_of_float monday_noon_tolls = Ok df1
         /\ lookup "start_day" (extra df1) = Some (Datetime64 [None])
         /\ lookup "start_time" (extra df1) = Some (Datetime64 [None])
         /\ discount_factor df1 = Raise TypeError)
  /\ calculate_time_based_toll_rates parse_datetime datetime_of_float monday_noon_tolls
     = Raise TypeError.
Proof.
  repeat (split; [reflexivity|]). split; [|reflexivity].
  eexists. split; [reflexivity|]. repeat split.
Qed.

(** C3 at a failing input: a record starting on a Saturday at 09:00:00.  Its
    temporal columns are overwritten with nulls and the weekday test is false
    on it, as the claim says, but no toll is multiplied by 0.7: the comparison
    of line 113 raises TypeError before any factor is assigned. *)
Theorem weekend_record_raises_TypeError
    (parse_datetime : string -> option Z) (datetime_of_float : float -> option Z) :
  Clock.weekday saturday_morning = 5
  /\ Clock.time_of_day saturday_morning = Clock.time 9 0 0
  /\ lookup "car" (extra saturday_tolls) = Some (Float64 [12]%float)
  /\ (exists df1,
         reset_temporal_columns parse_datetime datetime_of_float saturday_tolls = Ok df1
         /\ lookup "start_day" (extra df1) = Some (Datetime64 [None])
         /\ lookup "start_time" (extra df1) = Some (Datetime64 [None])
         /\ lookup "end_day" (extra df1) = Some (Datetime64 [None])
         /\ lookup "end_time" (extra df1) = Some (Datetime64 [None])
         /\ weekday_lt [None] 5 = [false])
  /\ calculate_time_based_toll_rates parse_datetime datetime_of_float saturday_tolls
     = Raise TypeError
  /\ (forall out,
         calculate_time_based_toll_rates parse_datetime datetime_of_float saturday_tolls
         <> Ok out).
Proof.
  repeat (split; [reflexivity|]).
  split; [eexists; split; [reflexivity|]; repeat split|].
  split; [reflexivity|]. intros out H. discriminate H.
Qed.

Lemma absent_temporal_columns_are_created_witness :
  reset_temporal_columns no_parse no_epoch empty_tolls
  = Ok (mkFrame []
          (extra empty_tolls ++ [("start_day", Datetime64 []);
                                 ("start_time", Object []);
                                 ("end_day", Datetime64 []);
                                 ("end_time", Object [])]%string))
  /\ exists out,
       calculate_time_based_toll_rates no_parse no_epoch empty_tolls = Ok out
       /\ lookup "start_day" (extra out) = Some (Datetime64 [])
       /\ lookup "end_day" (extra out) = Some (Datetime64 [])
       /\ lookup "start_time" (extra out) = Some (Object [])
       /\ lookup "end_time" (extra out) = Some (Object []).
Proof.
  destruct (absent_temporal_columns_are_created no_parse no_epoch empty_tolls
              empty_tolls_temporal_columns_absent) as [Hreset Hcall].
  split; [exact Hreset|].
  exact (Hcall eq_refl empty_tolls_well_formed empty_tolls_vehicle_columns).
Defined.

(** C4 as stated fails: the toll table without a record has none of the four
    temporal columns, and the call returns a table all the same. *)
Lemma absent_temporal_columns_do_not_fail :
  (forall name, In name temporal_names -> lookup name (extra empty_tolls) = None)
  /\ (exists out, calculate_time_based_toll_rates no_parse no_epoch empty_tolls = Ok out)
  /\ (forall e, calculate_time_based_toll_rates no_parse no_epoch empty_tolls <> Raise e).
Proof.
  split; [exact empty_tolls_temporal_columns_absent|]. split.
  - eexists. reflexivity.
  - intros e H. vm_compute in H. discriminate.
Qed.

End TimeBasedClaims.

(** ** Threshold filter *)

Module ThresholdClaims.
Import Pandas Frame Task2 FloatFacts.

Lemma filter_nothing {A : Type} (p : A -> bool) (l : list A) :
  (forall x, In x l -> p x = false) -> filter p l = [].
Proof.
  induction l as [|a t IH]; simpl; intro H; [reflexivity|].
  rewrite (H a (or_introl eq_refl)). apply IH. auto.
Qed.

(** C6, as the code has it: when no row starts at the reference identifier the
    call does not fail; the reference average is NaN, no group mean compares
    within the bounds, and the empty table is returned. *)
Theorem unknown_reference_gives_empty_table
    (series_sum group_sum : list float -> float) (df : DataFrame) (reference_id : Z) :
  ~ In reference_id (map id_start (rows df)) ->
  mean_with series_sum
    (map distance (filter (fun r => id_start r =? reference_id) (rows df))) = nan
  /\ find_ids_within_ten_percentage_threshold series_sum group_sum df reference_id
     = Ok [].
Proof.
  intro Hnot.
  assert (Hsel : filter (fun r => id_start r =? reference_id) (rows df) = []).
  { apply filter_nothing. intros r Hr. apply Z.eqb_neq. intros E.
    apply Hnot. apply in_map_iff. eauto. }
  unfold find_ids_within_ten_percentage_threshold. rewrite Hsel.
  split; [reflexivity|]. cbn [map mean_with filter].
  rewrite filter_nothing; [reflexivity|].
  intros [k x] _. cbn [snd].
  change (nan - 0.1 * nan)%float with nan. now rewrite leb_nan_l.
Qed.

Lemma unknown_reference_gives_empty_table_witness :
  let sum := fold_right PrimFloat.add 0%float in
  let df := mkFrame [mkRow 1 2 10; mkRow 2 1 10] [] in
  mean_with sum (map distance (filter (fun r => id_start r =? 3) (rows df))) = nan
  /\ find_ids_within_ten_percentage_threshold sum sum df 3 = Ok [].
Proof.
  intros sum df.
  apply (unknown_reference_gives_empty_table sum sum df 3).
  simpl. intuition discriminate.
Defined.

(** C6 as stated fails: with rows starting at 1 and 2 only, the reference 3
    gets the empty table and no error, while the reference 1 gets its own
    group. *)
Lemma unknown_reference_does_not_fail :
  let sum := fold_right PrimFloat.add 0%float in
  let df := mkFrame [mkRow 1 2 10; mkRow 2 1 10] [] in
  ~ In 3 (map id_start (rows df))
  /\ find_ids_within_ten_percentage_threshold sum sum df 3 = Ok []
  /\ (forall e, find_ids_within_ten_percentage_threshold sum sum df 3 <> Raise e)
  /\ find_ids_within_ten_percentage_threshold sum sum df 1
     = Ok [(1, 10%float); (2, 10%float)].
Proof.
  intros sum df. split; [simpl; intuition discriminate|].
  split; [reflexivity|]. split; [|reflexivity].
  intros e H. vm_compute in H. discriminate.
Qed.

End ThresholdClaims.

(** ** Completeness check *)

Module CompletenessClaims.
Import Pandas Task1 FrameFacts Examples.



(** C5 at a failing input: the group (7, 8) has the seven weekdays and its
    times run from 00:00:00 to 23:59:59, yet [time_check] raises TypeError
    where it should answer true, because two [datetime.time] values cannot be
    subtracted. *)
Theorem time_check_raises_on_complete_group :
  all_days_covered (map (fun o => Clock.weekday (timestamp o)) full_week) = true
  /\ series_min (map (fun o => Clock.time_of_day (timestamp o)) full_week)
     = Clock.time 0 0 0
  /\ series_max (map (fun o => Clock.time_of_day (timestamp o)) full_week)
     = Clock.time 23 59 59
  /\ time_check full_week = Raise TypeError.
Proof.
  repeat split; vm_compute; reflexivity.
Qed.

End CompletenessClaims.

(** ** Further properties of the distance matrix *)

Module DistanceExtras.
Import Pandas Frame Task2 FloatFacts LabelFacts MatrixFacts DistanceFacts UnrollFacts
       RoundTripFacts.

Lemma index_labelled (idx cols : list Z) (f : Z -> Z -> float) :
  index (labelled idx cols f) = idx /\ columns (labelled idx cols f) = cols.
Proof. split; reflexivity. Qed.

Lemma duplicated_NoDup (rs : list Row) : duplicated rs = false -> NoDup (map key rs).
Proof.
  induction rs as [|r t IH]; simpl; intro H; [constructor|].
  apply orb_false_iff in H. destruct H as [Hex Hdup].
  constructor; [|auto].
  intro Hin. apply in_map_iff in Hin. destruct Hin as (r' & Hk & Hr').
  assert (existsb (keyed (id_start r) (id_end r)) t = true); [|congruence].
  apply existsb_exists. exists r'. split; [assumption|].
  apply keyed_true. exact Hk.
Qed.

Lemma calculate_distance_matrix_NoDup (df : DataFrame) (M : Matrix) :
  calculate_distance_matrix df = Ok M -> NoDup (map key (rows df)).
Proof.
  intro H. apply duplicated_NoDup.
  destruct (duplicated (rows df)) eqn:E; [|reflexivity].
  rewrite (calculate_distance_matrix_duplicated df E) in H. discriminate.
Qed.

(** X1: on a table that has a row, the call raises ValueError exactly when two
    rows carry the same (id_start, id_end) pair, and returns a matrix
    otherwise. *)
Theorem distance_matrix_raises_iff_repeated_pair (df : DataFrame) :
  rows df <> [] ->
  (calculate_distance_matrix df = Raise ValueError <-> ~ NoDup (map key (rows df)))
  /\ ((exists M, calculate_distance_matrix df = Ok M) <-> NoDup (map key (rows df))).
Proof.
  intros _. destruct (duplicated (rows df)) eqn:E.
  - pose proof (calculate_distance_matrix_duplicated df E) as Hr.
    assert (Hnd : ~ NoDup (map key (rows df))).
    { intro Hnd. apply duplicated_false in Hnd. congruence. }
    split; split; auto.
    + intros [M HM]. congruence.
    + intro H. contradiction.
  - destruct (calculate_distance_matrix_total df E) as [M HM].
    pose proof (duplicated_NoDup _ E) as Hnd.
    split; split; eauto.
    + intro H. congruence.
    + intro H. contradiction.
Qed.

Lemma distance_matrix_raises_iff_repeated_pair_witness :
  let df := mkFrame [mkRow 1 2 10; mkRow 1 2 12] [] in
  (calculate_distance_matrix df = Raise ValueError <-> ~ NoDup (map key (rows df)))
  /\ ((exists M, calculate_distance_matrix df = Ok M) <-> NoDup (map key (rows df))).
Proof.
  intro df. apply (distance_matrix_raises_iff_repeated_pair df). discriminate.
Defined.

(** X2: the row and column labels of the matrix are one strictly increasing
    list holding exactly the identifiers that occur as id_start or id_end. *)
Theorem distance_matrix_labels (df : DataFrame) (M : Matrix) :
  calculate_distance_matrix df = Ok M ->
  StronglySorted Z.lt (index M)
  /\ columns M = index M
  /\ (forall z, In z (index M)
                <-> exists r, In r (rows df) /\ (id_start r = z \/ id_end r = z)).
Proof.
  intro H. apply calculate_distance_matrix_labelled in H. subst M.
  rewrite (proj1 (index_labelled _ _ _)), (proj2 (index_labelled _ _ _)).
  split; [apply identifiers_sorted|]. split; [reflexivity|].
  intro z. rewrite identifiers_In, !in_map_iff. split.
  - intros [(r & <- & Hr)|(r & <- & Hr)]; exists r; auto.
  - intros (r & Hr & [<-|<-]); [left|right]; exists r; auto.
Qed.

Lemma distance_matrix_labels_witness :
  let M := mkMatrix [1; 2; 3; 4] [1; 2; 3; 4]
             [[nan; 10; nan; 0]; [10; nan; 0; nan]; [nan; 0; nan; 5]; [0; nan; 5; nan]]%float in
  let df := mkFrame [mkRow 3 4 5; mkRow 1 2 10] [] in
  StronglySorted Z.lt (index M)
  /\ columns M = index M
  /\ (forall z, In z (index M)
                <-> exists r, In r (rows df) /\ (id_start r = z \/ id_end r = z)).
Proof.
  intros M df. apply (distance_matrix_labels df M). reflexivity.
Defined.

Lemma pivoted_cell_row (df : DataFrame) (i j : Z) (d : float) :
  NoDup (map key (rows df)) -> In (mkRow i j d) (rows df) -> isna d = false ->
  cell (pivoted df) i j = d.
Proof.
  intros Hnd Hin Hd.
  assert (Hpv : pivot_value (rows df) i j = d).
  { apply pivot_value_unique; [assumption|].
    intros r Hr Hk.
    destruct (In_nth _ _ (mkRow 0 0 0) Hr) as (a & Ha & Hra).
    destruct (In_nth _ _ (mkRow 0 0 0) Hin) as (b & Hb & Hrb).
    assert (a = b).
    { apply (proj1 (NoDup_nth (map key (rows df)) (0, 0)) Hnd);
        rewrite ?length_map; try assumption.
      change (0, 0) with (key (mkRow 0 0 0)).
      rewrite !map_nth, Hra, Hrb. exact Hk. }
    subst b. rewrite Hra in Hrb. rewrite Hrb. reflexivity. }
  rewrite pivoted_cell.
  - now rewrite Hpv, Hd.
  - apply in_map_iff. exists (mkRow i j d). auto.
  - apply in_map_iff. exists (mkRow i j d). auto.
Qed.

(** Where no row goes from [i] to [j], the pivoted table has a zero or
    nothing. *)
Lemma pivoted_cell_no_row (df : DataFrame) (i j : Z) :
  (forall r, In r (rows df) -> key r <> (i, j)) ->
  cell (pivoted df) i j = 0%float \/ cell (pivoted df) i j = nan.
Proof.
  intro Hno.
  destruct (In_dec_Z i (map id_start (rows df))) as [Hi|Hi];
    [destruct (In_dec_Z j (map id_end (rows df))) as [Hj|Hj]|].
  - left. rewrite pivoted_cell by assumption.
    now rewrite (pivot_value_absent _ _ _ Hno).
  - right. apply pivoted_cell_absent. auto.
  - right. apply pivoted_cell_absent. auto.
Qed.

Lemma distance_matrix_cell (df : DataFrame) (M : Matrix) (i j : Z) :
  calculate_distance_matrix df = Ok M -> In i (index M) -> In j (index M) -> i <> j ->
  cell M i j = fill_add 0 (cell (pivoted df) i j) (cell (pivoted df) j i).
Proof.
  intros H Hi Hj Hne. apply calculate_distance_matrix_labelled in H. subst M.
  rewrite (proj1 (index_labelled _ _ _)) in Hi, Hj.
  rewrite cell_labelled by assumption.
  unfold distance_cell. apply Z.eqb_neq in Hne. now rewrite Hne, andb_false_r.
Qed.

Lemma row_identifiers (df : DataFrame) (M : Matrix) (i j : Z) (d : float) :
  calculate_distance_matrix df = Ok M -> In (mkRow i j d) (rows df) ->
  In i (index M) /\ In j (index M).
Proof.
  intros H Hin. apply calculate_distance_matrix_labelled in H. subst M.
  rewrite (proj1 (index_labelled _ _ _)).
  rewrite !identifiers_In, !in_map_iff. split.
  - left. exists (mkRow i j d). auto.
  - right. exists (mkRow i j d). auto.
Qed.

(** X3: when both directions of a pair are given, each of the two cells holds
    the sum of the two distances. *)
Theorem both_directions_are_summed (df : DataFrame) (M : Matrix) (i j : Z) (d1 d2 : float) :
  calculate_distance_matrix df = Ok M ->
  In (mkRow i j d1) (rows df) -> In (mkRow j i d2) (rows df) -> i <> j ->
  isna d1 = false -> isna d2 = false ->
  cell M i j = (d1 + d2)%float /\ cell M j i = (d1 + d2)%float.
Proof.
  intros H H1 H2 Hne Hd1 Hd2.
  pose proof (calculate_distance_matrix_NoDup df M H) as Hnd.
  destruct (row_identifiers df M i j d1 H H1) as [Hi Hj].
  rewrite (distance_matrix_cell df M j i H Hj Hi) by congruence.
  rewrite (distance_matrix_cell df M i j H Hi Hj Hne).
  rewrite (pivoted_cell_row df i j d1 Hnd H1 Hd1), (pivoted_cell_row df j i d2 Hnd H2 Hd2).
  rewrite (fill_add_comm 0 d2 d1). split; now apply fill_add_present.
Qed.

Lemma both_directions_are_summed_witness :
  let M := mkMatrix [1; 2] [1; 2] [[0; 25]; [25; 0]]%float in
  cell M 1 2 = (10 + 15)%float /\ cell M 2 1 = (10 + 15)%float.
Proof.
  intro M.
  apply (both_directions_are_summed (mkFrame [mkRow 1 2 10; mkRow 2 1 15] []) M 1 2 10 15);
    try reflexivity; simpl; auto; lia.
Defined.

(** X4: when only one direction of a pair is given, both cells hold that
    distance (added to the 0 that stands for the missing direction). *)
Theorem single_direction_is_mirrored (df : DataFrame) (M : Matrix) (i j : Z) (d : float) :
  calculate_distance_matrix df = Ok M ->
  In (mkRow i j d) (rows df) -> (forall r, In r (rows df) -> key r <> (j, i)) ->
  i <> j -> isna d = false ->
  cell M i j = (d + 0)%float /\ cell M j i = (d + 0)%float.
Proof.
  intros H Hin Hno Hne Hd.
  pose proof (calculate_distance_matrix_NoDup df M H) as Hnd.
  destruct (row_identifiers df M i j d H Hin) as [Hi Hj].
  rewrite (distance_matrix_cell df M j i H Hj Hi) by congruence.
  rewrite (distance_matrix_cell df M i j H Hi Hj Hne).
  rewrite (pivoted_cell_row df i j d Hnd Hin Hd).
  rewrite (fill_add_comm 0 _ d).
  destruct (pivoted_cell_no_row df j i Hno) as [-> | ->];
    unfold fill_add; rewrite Hd; auto.
Qed.

Lemma single_direction_is_mirrored_witness :
  let M := mkMatrix [1; 2] [1; 2] [[nan; 10]; [10; nan]]%float in
  cell M 1 2 = (10 + 0)%float /\ cell M 2 1 = (10 + 0)%float.
Proof.
  intro M.
  apply (single_direction_is_mirrored (mkFrame [mkRow 1 2 10] []) M 1 2 10);
    try reflexivity; simpl; auto; try lia.
  intros r [<-|[]]. discriminate.
Defined.

(** X5: a pair of distinct identifiers that neither the pivoted table nor its
    transpose covers is left missing (NaN), not set to 0. *)
Theorem uncovered_pair_is_missing (df : DataFrame) (M : Matrix) (i j : Z) :
  calculate_distance_matrix df = Ok M ->
  In i (index M) -> In j (index M) -> i <> j ->
  ~ (In i (map id_start (rows df)) /\ In j (map id_end (rows df))) ->
  ~ (In j (map id_start (rows df)) /\ In i (map id_end (rows df))) ->
  isna (cell M i j) = true.
Proof.
  intros H Hi Hj Hne H1 H2.
  rewrite (distance_matrix_cell df M i j H Hi Hj Hne).
  rewrite !pivoted_cell_absent; [reflexivity| |].
  - destruct (In_dec_Z j (map id_start (rows df))); [right|left]; tauto.
  - destruct (In_dec_Z i (map id_start (rows df))); [right|left]; tauto.
Qed.

Lemma uncovered_pair_is_missing_witness :
  let M := mkMatrix [1; 2; 3; 4] [1; 2; 3; 4]
             [[nan; 10; nan; 0]; [10; nan; 0; nan]; [nan; 0; nan; 5]; [0; nan; 5; nan]]%float in
  isna (cell M 1 3) = true.
Proof.
  intro M.
  apply (uncovered_pair_is_missing (mkFrame [mkRow 1 2 10; mkRow 3 4 5] []) M 1 3);
    try reflexivity; simpl; try tauto; lia.
Defined.

End DistanceExtras.

(** ** Further properties of unrolling and of the threshold filter *)

Module UnrollExtras.
Import Pandas Frame Task2 FloatFacts LabelFacts MatrixFacts DistanceFacts UnrollFacts.

(** X6: an unrolled distance matrix never repeats an (id_start, id_end) pair,
    so building the matrix from it again does not raise. *)
Theorem unrolled_matrix_pivots_again (df : DataFrame) (M : Matrix) :
  calculate_distance_matrix df = Ok M ->
  NoDup (map key (rows (unroll_distance_matrix M)))
  /\ exists M', calculate_distance_matrix (unroll_distance_matrix M) = Ok M'.
Proof.
  intro H. apply calculate_distance_matrix_labelled in H.
  pose proof (sorted_NoDup _ (identifiers_sorted df)) as Hnd.
  assert (Hkeys : NoDup (map key (rows (unroll_distance_matrix M)))).
  { subst M. unfold unroll_distance_matrix. cbn [rows]. rewrite map_map.
    rewrite (map_ext _ fst) by (intros [[a b] c]; reflexivity).
    now apply stack_labelled_keys_NoDup. }
  split; [exact Hkeys|].
  apply calculate_distance_matrix_total. now apply duplicated_false.
Qed.

Lemma unrolled_matrix_pivots_again_witness :
  let M := mkMatrix [1; 2] [1; 2] [[0; 20]; [20; 0]]%float in
  NoDup (map key (rows (unroll_distance_matrix M)))
  /\ exists M', calculate_distance_matrix (unroll_distance_matrix M) = Ok M'.
Proof.
  intro M.
  apply (unrolled_matrix_pivots_again (mkFrame [mkRow 1 2 10; mkRow 2 1 10] []) M).
  reflexivity.
Defined.

Lemma stacked_row_length (i : Z) (cols : list Z) (row : list float) :
  List.length cols = List.length row ->
  List.length
    (filter (fun e : Z * Z * float => negb (isna (snd e)))
       (map (fun jx : Z * float => (i, fst jx, snd jx)) (combine cols row)))
  = List.length (filter (fun x => negb (isna x)) row).
Proof.
  revert row. induction cols as [|j cols IH]; intros [|x row] Hlen;
    simpl in *; try reflexivity; try discriminate.
  destruct (negb (isna x)); simpl; rewrite IH by lia; reflexivity.
Qed.

(** X7: on a frame whose block has one row per index label and one cell per
    column label, unrolling emits exactly one record per cell that is not
    missing. *)
Theorem unroll_counts_present_cells (M : Matrix) :
  List.length (index M) = List.length (values M) ->
  Forall (fun row => List.length row = List.length (columns M)) (values M) ->
  List.length (rows (unroll_distance_matrix M))
  = List.length (filter (fun x => negb (isna x)) (List.concat (values M))).
Proof.
  destruct M as [idx cols vals]. unfold unroll_distance_matrix, stack.
  cbn [rows index columns values]. rewrite length_map.
  revert vals. induction idx as [|i idx IH]; intros [|row vals] Hlen Hrows;
    simpl in *; try reflexivity; try discriminate.
  inversion Hrows as [|? ? Hrow Hrest]; subst.
  rewrite filter_app, !length_app. rewrite IH by (auto; lia).
  now rewrite stacked_row_length by auto.
Qed.

Lemma unroll_counts_present_cells_witness :
  let M := mkMatrix [1; 2; 3; 4] [1; 2; 3; 4]
             [[0; 10; nan; 0]; [10; 0; 0; nan]; [nan; 0; 0; 5]; [0; nan; 5; 0]]%float in
  List.length (rows (unroll_distance_matrix M))
  = List.length (filter (fun x => negb (isna x)) (List.concat (values M))).
Proof.
  intro M. apply (unroll_counts_present_cells M).
  - reflexivity.
  - repeat constructor.
Defined.

End UnrollExtras.

Module ThresholdExtras.
Import Pandas Frame Task2 FloatFacts LabelFacts.

Lemma sort_values_sorted (l : list (Z * float)) :
  StronglySorted Z.lt (map fst l) -> sort_values l = l.
Proof.
  induction l as [|a t IH]; simpl; intro H; [reflexivity|].
  inversion H as [|? ? Ht Ha]; subst.
  unfold sort_values in *. simpl. rewrite (IH Ht).
  destruct t as [|y t']; [reflexivity|]. simpl.
  inversion Ha as [|? ? Hlt _]; subst.
  assert (E : (fst a <=? fst y) = true) by (apply Z.leb_le; lia).
  now rewrite E.
Qed.

Lemma filtered_keys_sorted (p : Z * float -> bool) (f : Z -> float) (U : list Z) :
  StronglySorted Z.lt U ->
  StronglySorted Z.lt (map fst (filter p (map (fun k => (k, f k)) U))).
Proof.
  induction 1 as [|k U Hs IH Hk]; simpl; [constructor|].
  destruct (p (k, f k)); simpl; [|exact IH].
  constructor; [exact IH|].
  apply Forall_forall. intros z Hz.
  apply in_map_iff in Hz. destruct Hz as ([k' x] & <- & Hin).
  apply filter_In in Hin. destruct Hin as [Hin _].
  apply in_map_iff in Hin. destruct Hin as (k'' & E & Hk'').
  injection E as -> _. rewrite Forall_forall in Hk. simpl. auto.
Qed.

Section WithSums.

Variable series_sum : list float -> float.
Variable group_sum : list float -> float.

(** X8: the table returned lists, in strictly increasing order of id_start,
    exactly the identifiers of the input whose group mean lies within the two
    bounds, each with that mean; the final sort changes nothing. *)
Theorem threshold_filter_selects_within_bounds (df : DataFrame) (reference_id : Z) :
  let avg :=
    mean_with series_sum
      (map distance (filter (fun r => id_start r =? reference_id) (rows df))) in
  let group_mean k :=
    mean_with group_sum (map distance (filter (fun r => id_start r =? k) (rows df))) in
  let within x :=
    ((avg - 0.1 * avg <=? x) && (x <=? avg + 0.1 * avg))%float in
  exists result,
    find_ids_within_ten_percentage_threshold series_sum group_sum df reference_id
    = Ok result
    /\ StronglySorted Z.lt (map fst result)
    /\ (forall k x, In (k, x) result
                    <-> In k (map id_start (rows df))
                        /\ x = group_mean k /\ within x = true).
Proof.
  intros avg group_mean within.
  unfold find_ids_within_ten_percentage_threshold, groupby_mean.
  fold avg. fold group_mean.
  set (selected := filter _ _).
  assert (Hs : StronglySorted Z.lt (map fst selected))
    by (apply filtered_keys_sorted, sorted_unique_sorted).
  exists selected. split; [now rewrite sort_values_sorted|]. split; [exact Hs|].
  intros k x. unfold selected. rewrite filter_In, in_map_iff. cbn [snd]. split.
  - intros [(k' & E & Hk') Hw]. injection E as -> <-.
    apply (proj1 (sorted_unique_In _ _)) in Hk'. repeat split; assumption.
  - intros (Hk & -> & Hw). split; [|exact Hw].
    exists k. split; [reflexivity|]. now apply (proj2 (sorted_unique_In _ _)).
Qed.

End WithSums.

End ThresholdExtras.

(** ** Further properties of the toll columns *)

Module TollExtras.
Import Pandas Frame Task2 FrameFacts.

Lemma assign_same_value (name : string) (c : column) (cols : list (string * column)) :
  lookup name cols = Some c -> assign name c cols = cols.
Proof.
  induction cols as [|[k c'] t IH]; simpl; [discriminate|].
  destruct (String.eqb k name) eqn:E.
  - intro H. injection H as ->. reflexivity.
  - intro H. now rewrite IH.
Qed.

Lemma assign_absent (name : string) (c : column) (cols : list (string * column)) :
  lookup name cols = None -> assign name c cols = cols ++ [(name, c)].
Proof.
  induction cols as [|[k c'] t IH]; simpl; [reflexivity|].
  destruct (String.eqb k name); [discriminate|].
  intro H. now rewrite IH.
Qed.

Lemma lookup_app_absent (name : string) (cols more : list (string * column)) :
  lookup name cols = None -> lookup name (cols ++ more) = lookup name more.
Proof.
  induction cols as [|[k c'] t IH]; simpl; [reflexivity|].
  destruct (String.eqb k name); [discriminate|exact IH].
Qed.

Lemma Forall_assign (n : nat) (name : string) (c : column) (cols : list (string * column)) :
  Forall (fun kc => column_length (snd kc) = n) cols ->
  column_length c = n ->
  Forall (fun kc => column_length (snd kc) = n) (assign name c cols).
Proof.
  intros H Hc. induction H as [|[k c'] t Hk Ht IH]; simpl.
  - repeat constructor. exact Hc.
  - destruct (String.eqb k name); constructor; auto.
Qed.

Lemma well_formed_setitem (df : DataFrame) (name : string) (c : column) :
  well_formed df -> column_length c = List.length (rows df) ->
  well_formed (setitem df name c).
Proof.
  intros H Hc. unfold well_formed, setitem. cbn [extra rows]. now apply Forall_assign.
Qed.

Lemma well_formed_drop (df : DataFrame) (name : string) :
  well_formed df -> well_formed (drop df name).
Proof.
  intro H. unfold well_formed, drop in *. cbn [extra rows].
  apply Forall_forall. intros kc Hkc. apply filter_In in Hkc.
  rewrite Forall_forall in H. now apply H.
Qed.

(** The vehicle columns of a toll table, read back one by one. *)
Lemma toll_rate_lookup (df : DataFrame) (v : string) (rate : float) :
  In (v, rate) toll_rates ->
  lookup v (extra (calculate_toll_rate df))
  = Some (Float64 (map (fun r => (distance r * rate)%float) (rows df))).
Proof.
  unfold calculate_toll_rate, toll_rates, setitem. cbn [fold_left rows extra].
  rewrite !map_map. simpl.
  intros [E|[E|[E|[E|[E|[]]]]]]; injection E as <- <-; lookup_simpl; reflexivity.
Qed.

Lemma toll_rate_well_formed (df : DataFrame) :
  well_formed df -> well_formed (calculate_toll_rate df).
Proof.
  intro H. unfold calculate_toll_rate, toll_rates. cbn [fold_left].
  repeat (apply well_formed_setitem;
          [|cbn [rows setitem column_length]; now rewrite !length_map]).
  exact H.
Qed.

(** X9: computing the toll columns of a toll table again changes nothing. *)
Theorem toll_rate_idempotent (df : DataFrame) :
  calculate_toll_rate (calculate_toll_rate df) = calculate_toll_rate df.
Proof.
  unfold calculate_toll_rate, toll_rates, setitem. cbn [fold_left rows extra].
  f_equal.
  repeat (rewrite assign_same_value by (lookup_simpl; reflexivity)).
  reflexivity.
Qed.

(** X10: on a frame that has none of the five vehicle columns, they are
    appended after the existing columns in the order moto, car, rv, bus,
    truck. *)
Theorem toll_rate_appends_in_order (df : DataFrame) :
  (forall v, In v (map fst toll_rates) -> lookup v (extra df) = None) ->
  let scaled rate := Float64 (map (fun r => (distance r * rate)%float) (rows df)) in
  extra (calculate_toll_rate df)
  = extra df ++ [("moto", scaled 0.8); ("car", scaled 1.2); ("rv", scaled 1.5);
                 ("bus", scaled 2.2); ("truck", scaled 3.6)]%string%float.
Proof.
  intros Habs scaled. subst scaled.
  unfold calculate_toll_rate, toll_rates, setitem. cbn [fold_left rows extra].
  rewrite !map_map.
  rewrite (assign_absent "moto") by (apply Habs; simpl; tauto).
  rewrite (assign_absent "car")
    by (rewrite lookup_app_absent by (apply Habs; simpl; tauto); reflexivity).
  rewrite <- app_assoc.
  rewrite (assign_absent "rv")
    by (rewrite lookup_app_absent by (apply Habs; simpl; tauto); reflexivity).
  rewrite <- app_assoc.
  rewrite (assign_absent "bus")
    by (rewrite lookup_app_absent by (apply Habs; simpl; tauto); reflexivity).
  rewrite <- app_assoc.
  rewrite (assign_absent "truck")
    by (rewrite lookup_app_absent by (apply Habs; simpl; tauto); reflexivity).
  rewrite <- app_assoc. reflexivity.
Qed.

Lemma toll_rate_appends_in_order_witness :
  extra (calculate_toll_rate (mkFrame [mkRow 1 2 10] []))
  = [("moto", Float64 [10 * 0.8]); ("car", Float64 [10 * 1.2]);
     ("rv", Float64 [10 * 1.5]); ("bus", Float64 [10 * 2.2]);
     ("truck", Float64 [10 * 3.6])]%string%float.
Proof.
  apply (toll_rate_appends_in_order (mkFrame [mkRow 1 2 10] [])).
  intros v _. reflexivity.
Defined.

End TollExtras.

(** ** Further properties of the time-based rates *)

Module TimeBasedExtras.
Import Pandas Frame Task2 FrameFacts TimeBasedFacts.

Section WithParser.

Variable parse_datetime : string -> option Z.
Variable datetime_of_float : float -> option Z.

(** X11: on every table that has at least one record the call raises
    TypeError, whatever its columns hold: the time columns rebuilt by lines
    99-100 are all-[NaT] datetime columns, and the first comparison of line
    113 against [datetime.time] bounds fails. *)
Theorem time_based_raises_TypeError_on_any_record (df : DataFrame) :
  rows df <> [] ->
  calculate_time_based_toll_rates parse_datetime datetime_of_float df = Raise TypeError.
Proof.
  intro Hrows.
  destruct (reset_temporal_columns_Ok parse_datetime datetime_of_float df)
    as (df1 & Hreset & Hrows1 & Hsd & _ & Hst & _ & _).
  unfold calculate_time_based_toll_rates. rewrite Hreset. cbn [bind].
  rewrite <- Hrows1 in Hsd, Hst, Hrows.
  now rewrite (discount_factor_raises df1 Hrows Hsd Hst).
Qed.

(** X12: on a table without a record whose five vehicle columns are float
    columns the call returns: the table still has no record, its vehicle
    columns are unchanged (empty), the four temporal columns are present and
    empty, there is no discount_factor column, and every other column of the
    input is unchanged. *)
Theorem time_based_returns_on_empty_table (df : DataFrame) :
  rows df = [] ->
  well_formed df ->
  (forall v, In v vehicle_types -> exists l, lookup v (extra df) = Some (Float64 l)) ->
  exists out,
    calculate_time_based_toll_rates parse_datetime datetime_of_float df = Ok out
    /\ rows out = []
    /\ (forall v, In v vehicle_types ->
                  lookup v (extra out) = lookup v (extra df)
                  /\ lookup v (extra out) = Some (Float64 []))
    /\ lookup "start_day" (extra out) = Some (Datetime64 [])
    /\ lookup "end_day" (extra out) = Some (Datetime64 [])
    /\ lookup "start_time" (extra out) = Some (Object [])
    /\ lookup "end_time" (extra out) = Some (Object [])
    /\ lookup "discount_factor" (extra out) = None
    /\ (forall name, ~ In name vehicle_types -> ~ In name temporal_names ->
                     name <> "discount_factor"%string ->
                     lookup name (extra out) = lookup name (extra df)).
Proof.
  intros Hrows Hwf Hcols.
  destruct (time_based_empty parse_datetime datetime_of_float df Hrows Hwf Hcols)
    as (out & Hout & Hrows' & Hveh & Hsd & Hed & Hst & Het & Hd & Hrest).
  exists out. repeat split; try assumption.
  - rewrite (Hveh v) by assumption.
    destruct (Hcols v) as [l Hl]; [assumption|]. rewrite Hl.
    pose proof (well_formed_length df v (Float64 l) Hwf Hl) as Hlen.
    rewrite Hrows in Hlen. destruct l; [reflexivity|discriminate].
  - now apply Hveh.
Qed.


End WithParser.

End TimeBasedExtras.

(** ** Further properties of python_task_1.py *)

Module Task1Extras.
Import Pandas Task1 Task1Counts FloatFacts LabelFacts CompletenessClaims.


Lemma ltb_nan_l (x : float) : (nan <? x)%float = false.
Proof.
  rewrite FloatAxioms.ltb_spec. reflexivity.
Qed.

Lemma insert_sorted_Permutation (x : Z) (l : list Z) :
  Permutation (insert_sorted x l) (x :: l).
Proof.
  induction l as [|y t IH]; simpl; [reflexivity|].
  destruct (x <=? y); [reflexivity|].
  rewrite IH. apply perm_swap.
Qed.

Lemma sorted_Permutation (l : list Z) : Permutation (sorted l) l.
Proof.
  induction l as [|x t IH]; simpl; [reflexivity|].
  unfold sorted in *. simpl. rewrite insert_sorted_Permutation. now constructor.
Qed.

Lemma insert_sorted_sorted (x : Z) (l : list Z) :
  StronglySorted Z.le l -> StronglySorted Z.le (insert_sorted x l).
Proof.
  induction 1 as [|y t Hs IH Hall]; simpl.
  - repeat constructor.
  - destruct (Z.leb_spec x y).
    + constructor; [constructor; assumption|].
      constructor; [assumption|].
      eapply Forall_impl; [|exact Hall]. simpl; intros; lia.
    + constructor; [assumption|].
      apply Forall_forall. intros z Hz.
      apply (Permutation_in _ (insert_sorted_Permutation x t)) in Hz.
      destruct Hz as [->|Hz]; [lia|].
      rewrite Forall_forall in Hall. auto.
Qed.

Lemma sorted_sorted (l : list Z) : StronglySorted Z.le (sorted l).
Proof.
  induction l; simpl; [constructor|]. now apply insert_sorted_sorted.
Qed.

Lemma sorted_increasing (l : list Z) : StronglySorted Z.lt l -> sorted l = l.
Proof.
  induction 1 as [|x t Hs IH Hx]; [reflexivity|].
  unfold sorted in *. simpl. rewrite IH.
  destruct t as [|y t']; [reflexivity|]. simpl.
  inversion Hx as [|? ? Hlt _]; subst.
  assert (E : (x <=? y) = true) by (apply Z.leb_le; lia).
  now rewrite E.
Qed.

Lemma increasing_sublist (p : Z * float -> bool) (f : Z -> float) (U : list Z) :
  StronglySorted Z.lt U ->
  StronglySorted Z.lt (map fst (filter p (map (fun k => (k, f k)) U))).
Proof.
  induction 1 as [|k U Hs IH Hk]; simpl; [constructor|].
  destruct (p (k, f k)); simpl; [|exact IH].
  constructor; [exact IH|].
  apply Forall_forall. intros z Hz.
  apply in_map_iff in Hz. destruct Hz as ([k' x] & <- & Hin).
  apply filter_In in Hin. destruct Hin as [Hin _].
  apply in_map_iff in Hin. destruct Hin as (k'' & E & Hk'').
  injection E as -> _. rewrite Forall_forall in Hk. simpl. auto.
Qed.

Section WithSums.

Variable numpy_select : list (list bool) -> list string -> list string.
Variable series_sum : list float -> float.
Variable group_sum : list float -> float.

(** X17: the labels returned are in non-decreasing order and are, with their
    multiplicity, the index labels of the rows whose bus value exceeds twice
    the mean. *)
Theorem bus_indexes_sorted_selection (df : list Vehicle) :
  let bus_mean := Task2.mean_with series_sum (map bus df) in
  let above r := (2 * bus_mean <? bus r)%float in
  StronglySorted Z.le (get_bus_indexes series_sum df)
  /\ Permutation (get_bus_indexes series_sum df) (map label (filter above df))
  /\ (forall i, In i (get_bus_indexes series_sum df)
                <-> exists r, In r df /\ label r = i /\ above r = true).
Proof.
  intros bus_mean above. unfold get_bus_indexes. fold bus_mean. fold above.
  split; [apply sorted_sorted|]. split; [apply sorted_Permutation|].
  intro i. split.
  - intro Hi. apply (Permutation_in _ (sorted_Permutation _)) in Hi.
    apply in_map_iff in Hi. destruct Hi as (r & <- & Hr).
    apply filter_In in Hr. exists r. tauto.
  - intros (r & Hr & <- & Ha).
    apply (Permutation_in _ (Permutation_sym (sorted_Permutation _))).
    apply in_map_iff. exists r. split; [reflexivity|]. now apply filter_In.
Qed.

(** X18: on a table without any bus value (empty, or every value missing) the
    mean is NaN and no label is returned. *)
Theorem bus_indexes_without_values (df : list Vehicle) :
  (forall r, In r df -> Pandas.isna (bus r) = true) ->
  get_bus_indexes series_sum df = [].
Proof.
  intro Hna. unfold get_bus_indexes.
  assert (Hmean : Task2.mean_with series_sum (map bus df) = nan).
  { unfold Task2.mean_with.
    rewrite ThresholdClaims.filter_nothing; [reflexivity|].
    intros x Hx. apply in_map_iff in Hx. destruct Hx as (r & <- & Hr).
    now rewrite (Hna r Hr). }
  rewrite Hmean. change (2 * nan)%float with nan.
  rewrite ThresholdClaims.filter_nothing; [reflexivity|].
  intros r _. apply ltb_nan_l.
Qed.

(** X19: the routes returned are in strictly increasing order, without
    repetition, and are exactly the routes of the table whose mean truck
    value exceeds 7. *)
Theorem filter_routes_selects_above_seven (df : list Vehicle) :
  let route_mean k :=
    Task2.mean_with group_sum (map truck (filter (fun r => route r =? k) df)) in
  StronglySorted Z.lt (filter_routes group_sum df)
  /\ (forall k, In k (filter_routes group_sum df)
                <-> In k (map route df) /\ (7 <? route_mean k)%float = true).
Proof.
  intro route_mean. unfold filter_routes, route_means. fold route_mean.
  set (above := filter _ _).
  assert (Hs : StronglySorted Z.lt (map fst above))
    by (apply increasing_sublist, sorted_unique_sorted).
  rewrite (sorted_increasing _ Hs). split; [exact Hs|].
  intro k. unfold above. rewrite in_map_iff. split.
  - intros ([k' x] & <- & Hin). apply filter_In in Hin. destruct Hin as [Hin Hx].
    apply in_map_iff in Hin. destruct Hin as (k'' & E & Hk).
    injection E as -> <-. apply (proj1 (sorted_unique_In _ _)) in Hk.
    cbn [fst snd] in *. auto.
  - intros [Hk Hx]. exists (k, route_mean k). split; [reflexivity|].
    apply filter_In. split; [|exact Hx].
    apply in_map_iff. exists k. split; [reflexivity|].
    now apply (proj2 (sorted_unique_In _ _)).
Qed.

(** X20: the type count never returns: the module does not import numpy, so
    reading the name np raises NameError on every table. *)
Theorem get_type_count_raises_NameError (df : list Vehicle) :
  get_type_count numpy_select df = NameError "np".
Proof.
  reflexivity.
Qed.

End WithSums.

(** X21: the modified matrix keeps the labels and the shape of its input, and
    on a frame whose block has one row per index label and one cell per
    column label each cell is the rounded rescaling of the input cell: times
    0.75 above 20, times 1.25 otherwise (20 itself and NaN included). *)
Theorem multiply_matrix_cells (round1 : float -> float) (m : Matrix) :
  List.length (values m) = List.length (index m) ->
  Forall (fun row => List.length row = List.length (columns m)) (values m) ->
  index (multiply_matrix round1 m) = index m
  /\ columns (multiply_matrix round1 m) = columns m
  /\ map (@List.length float) (values (multiply_matrix round1 m))
     = map (@List.length float) (values m)
  /\ (forall i j, In i (index m) -> In j (columns m) ->
        cell (multiply_matrix round1 m) i j
        = round1 (if (20 <? cell m i j)%float then (cell m i j * 0.75)%float
                  else (cell m i j * 1.25)%float)).
Proof.
  intros Hrows Hcols. unfold multiply_matrix. cbn [index columns values].
  split; [reflexivity|]. split; [reflexivity|]. split.
  - rewrite !map_map. apply map_ext. intro row. now rewrite !length_map.
  - intros i j Hi Hj. unfold cell. cbn [index columns values].
    destruct (get_loc_In _ _ Hi) as [r Hr], (get_loc_In _ _ Hj) as [c Hc].
    rewrite Hr, Hc. apply get_loc_Some in Hr, Hc.
    destruct Hr as [Hr _], Hc as [Hc _].
    rewrite map_map.
    assert (Hrow : List.length (nth r (values m) []) = List.length (columns m)).
    { rewrite Forall_forall in Hcols. apply Hcols, nth_In. lia. }
    pose proof (map_nth (fun row => map round1 (map rescale row)) (values m) [] r) as E.
    cbn [map] in E. rewrite E, map_map.
    rewrite (nth_indep _ nan (round1 (rescale nan))) by (rewrite length_map; lia).
    rewrite (map_nth (fun x => round1 (rescale x))). reflexivity.
Qed.

End Task1Extras.

(** ** The further properties on example tables *)

Module ExtrasExamples.
Import Pandas Frame Task2 Task1Counts FrameFacts TimeBasedFacts TimeBasedClaims
       TimeBasedExtras Task1Extras Examples.

Lemma time_based_raises_TypeError_on_any_record_witness :
  calculate_time_based_toll_rates no_parse no_epoch
    (calculate_toll_rate (mkFrame [mkRow 1 2 10] []))
  = Raise TypeError.
Proof.
  apply (time_based_raises_TypeError_on_any_record no_parse no_epoch). discriminate.
Defined.

Lemma time_based_returns_on_empty_table_witness :
  exists out,
    calculate_time_based_toll_rates no_parse no_epoch empty_tolls = Ok out
    /\ rows out = []
    /\ lookup "car" (extra out) = Some (Float64 [])
    /\ lookup "start_day" (extra out) = Some (Datetime64 [])
    /\ lookup "start_time" (extra out) = Some (Object [])
    /\ lookup "discount_factor" (extra out) = None.
Proof.
  destruct (time_based_returns_on_empty_table no_parse no_epoch empty_tolls eq_refl
              empty_tolls_well_formed empty_tolls_vehicle_columns)
    as (out & Hout & Hrows & Hveh & Hsd & _ & Hst & _ & Hd & _).
  exists out. repeat split; try assumption.
  apply Hveh. unfold vehicle_types. simpl. tauto.
Defined.


Lemma multiply_matrix_cells_witness :
  let m := mkMatrix [1; 2] [1; 2] [[0; 30]; [20; 0]]%float in
  cell (multiply_matrix (fun x => x) m) 1 2 = (30 * 0.75)%float
  /\ cell (multiply_matrix (fun x => x) m) 2 1 = (20 * 1.25)%float.
Proof.
  intro m.
  destruct (multiply_matrix_cells (fun x => x) m eq_refl) as (_ & _ & _ & Hcell).
  - repeat constructor.
  - split; [apply (Hcell 1 2)|apply (Hcell 2 1)]; simpl; tauto.
Defined.

Lemma bus_indexes_without_values_witness :
  get_bus_indexes (fold_right PrimFloat.add 0%float)
    [mkVehicle 0 1 5 nan 3; mkVehicle 1 1 7 nan 4]%float = [].
Proof.
  apply (bus_indexes_without_values (fold_right PrimFloat.add 0%float)).
  intros r [<-|[<-|[]]]; reflexivity.
Defined.

End ExtrasExamples.
